(** * Short-video analytics dashboard: the metrics engine

    A shallow embedding of [src/data_processor.py] (class [DataProcessor])
    and of the ranking step of [src/dashboard.py]
    ([VideoAnalyticsDashboard.display_video_ranking]), with the properties
    the specification states about them.

    The program is a thin layer over pandas, so the development has three
    layers:

    - [Float64], [Int64]: the number types of the columns.  float64 is IEEE
      754 binary64, taken from the specification of floating-point numbers
      of the Standard Library ([SpecFloat], the executable model behind
      primitive floats); int64 is [Z] with its wrap-around written out.
    - [Pandas]: data frames as objects in a store, addressed by reference,
      with the column operations the program calls.  Python exceptions are
      an outcome of every operation; a raised exception keeps the store as
      it was mutated so far.
    - the program itself, method by method and line by line. *)

From Stdlib Require Import ZArith Lia Permutation Ascii String.
From Stdlib Require Import Floats.SpecFloat.
From stdpp Require Import gmap strings list sorting.

Local Open Scope Z_scope.

(** ** float64 *)

Module Float64.

Definition float : Type := spec_float.

Definition prec : Z := 53.
Definition emax : Z := 1024.

Definition fadd : float -> float -> float := SFadd prec emax.
Definition fmul : float -> float -> float := SFmul prec emax.
Definition fdiv : float -> float -> float := SFdiv prec emax.

(** [x < y] and [x <= y]; both are false as soon as one side is NaN. *)
Definition flt : float -> float -> bool := SFltb.
Definition fle : float -> float -> bool := SFleb.

Definition nan : float := S754_nan.
Definition pinf : float := S754_infinity false.

Definition is_nan (x : float) : bool :=
  match x with S754_nan => true | _ => false end.

Definition is_finite (x : float) : bool :=
  match x with S754_zero _ | S754_finite _ _ _ => true | _ => false end.

(** Conversion of an integer to the nearest float64 (exact below 2^53). *)
Definition of_int (z : Z) : float := binary_normalize prec emax z 0 false.

(** The float64 nearest to the decimal literal [m / 10^k], as Python reads
    [0.4] or [0.3]: both operands are exact and the division is correctly
    rounded. *)
Definition dec (m : Z) (k : Z) : float := fdiv (of_int m) (of_int (10 ^ k)).

(** [numpy.rint]: round to the nearest integer, halves to even. *)
Definition rint (x : float) : float :=
  match x with
  | S754_finite s m e =>
      if 0 <=? e then x
      else
        let '(mrs, _) := shr (shr_record_of_loc (Zpos m) loc_Exact) e (- e) in
        match round_nearest_even (shr_m mrs) (loc_of_shr_record mrs) with
        | Zpos n => binary_round prec emax s n 0
        | _ => S754_zero s
        end
  | _ => x
  end.

(** [numpy.round(x, decimals)]: numpy scales by [10^decimals], calls
    [rint] and scales back; it is not a correctly rounded decimal
    rounding. *)
Definition np_round (decimals : Z) (x : float) : float :=
  if decimals =? 0 then rint x
  else if 0 <? decimals then
    fdiv (rint (fmul x (of_int (10 ^ decimals)))) (of_int (10 ^ decimals))
  else
    fmul (rint (fdiv x (of_int (10 ^ (- decimals))))) (of_int (10 ^ (- decimals))).

(** Reductions.  pandas skips NaN ([skipna=True]); the sum runs left to
    right here (numpy's blocked summation agrees with it on short
    columns, and no property below depends on the order). *)
Definition fsum (xs : list float) : float :=
  fold_left fadd (filter (λ x, is_nan x = false) xs) (S754_zero false).

Definition fmean (xs : list float) : float :=
  let ys := filter (λ x, is_nan x = false) xs in
  fdiv (fold_left fadd ys (S754_zero false)) (of_int (Z.of_nat (length ys))).

End Float64.

(** ** int64 *)

Module Int64.

Definition wrap (z : Z) : Z := (z + 2 ^ 63) mod 2 ^ 64 - 2 ^ 63.

Definition add (a b : Z) : Z := wrap (a + b).
Definition mul (a b : Z) : Z := wrap (a * b).

Definition sum (xs : list Z) : Z := fold_left add xs 0.

Definition in_range (z : Z) : Prop := - 2 ^ 63 <= z < 2 ^ 63.

End Int64.

Import Float64.

Arguments of_int : simpl never.
Arguments dec : simpl never.
Arguments fadd : simpl never.
Arguments fmul : simpl never.
Arguments fdiv : simpl never.
Arguments flt : simpl never.
Arguments fle : simpl never.
Arguments rint : simpl never.
Arguments np_round : simpl never.
Arguments fsum : simpl never.
Arguments fmean : simpl never.
Arguments Int64.wrap : simpl never.
Arguments Int64.add : simpl never.
Arguments Int64.mul : simpl never.
Arguments Int64.sum : simpl never.

(** ** pandas: columns, frames and the operations the program calls *)

Module Pandas.

(** A parsed timestamp ([datetime64]); only the wall-clock hour is read
    by the program. *)
Record datetime : Type :=
  { year : Z; month : Z; day : Z; hour : Z; minute : Z; second : Z }.

(** A column holds values of one dtype. *)
Inductive column : Type :=
| IntCol (xs : list Z)            (* int64 *)
| FloatCol (xs : list float)      (* float64 *)
| BoolCol (xs : list bool)        (* bool *)
| ObjCol (xs : list string)       (* object: Python strings *)
| TimeCol (xs : list datetime).   (* datetime64[ns] *)

Definition col_len (c : column) : nat :=
  match c with
  | IntCol xs => length xs
  | FloatCol xs => length xs
  | BoolCol xs => length xs
  | ObjCol xs => length xs
  | TimeCol xs => length xs
  end.

(** A data frame: its number of rows, its named columns, and the named
    index a group-by leaves behind until [reset_index] ([None] is the
    default positional index, whose labels are not modelled). *)
Record DataFrame : Type :=
  { nrows : nat;
    cols : gmap string column;
    index : option (string * column) }.

(** A numpy scalar, as the reductions return it. *)
Inductive scalar : Type :=
| SInt (z : Z)
| SFloat (x : float).

Inductive exn : Type :=
| OSError (path : string)     (* FileNotFoundError, PermissionError, ... *)
| KeyError (key : string)
| ValueError
| TypeError
| AttributeError.

Inductive outcome (A : Type) : Type :=
| Ret (a : A)
| Raise (e : exn).
Arguments Ret {A} a.
Arguments Raise {A} e.

Definition obind {A B} (o : outcome A) (k : A -> outcome B) : outcome B :=
  match o with
  | Ret a => k a
  | Raise e => Raise e
  end.

(** *** Column arithmetic (element by element) *)

Definition as_float (c : column) : outcome (list float) :=
  match c with
  | IntCol xs => Ret (of_int <$> xs)
  | FloatCol xs => Ret xs
  | _ => Raise TypeError
  end.

Definition scalar_float (s : scalar) : float :=
  match s with
  | SInt z => of_int z
  | SFloat x => x
  end.

(** [a + b] *)
Definition col_add (a b : column) : outcome column :=
  match a, b with
  | IntCol xs, IntCol ys => Ret (IntCol (zip_with Int64.add xs ys))
  | _, _ =>
      obind (as_float a) (λ xs,
      obind (as_float b) (λ ys,
      Ret (FloatCol (zip_with fadd xs ys))))
  end.

(** [a / b]: true division, always in float64; a zero divisor gives an
    infinity or NaN, never an exception. *)
Definition col_truediv (a b : column) : outcome column :=
  obind (as_float a) (λ xs,
  obind (as_float b) (λ ys,
  Ret (FloatCol (zip_with fdiv xs ys)))).

(** [a * s] for a Python number [s] *)
Definition col_mul_scalar (a : column) (s : scalar) : outcome column :=
  match a, s with
  | IntCol xs, SInt z => Ret (IntCol ((λ x, Int64.mul x z) <$> xs))
  | _, _ =>
      obind (as_float a) (λ xs,
      Ret (FloatCol ((λ x, fmul x (scalar_float s)) <$> xs)))
  end.

(** [a / s] for a Python number [s] *)
Definition col_div_scalar (a : column) (s : scalar) : outcome column :=
  obind (as_float a) (λ xs,
  Ret (FloatCol ((λ x, fdiv x (scalar_float s)) <$> xs))).

(** [a.round(decimals)]: integers are left alone. *)
Definition col_round (decimals : Z) (a : column) : outcome column :=
  match a with
  | FloatCol xs => Ret (FloatCol (np_round decimals <$> xs))
  | IntCol xs => Ret (IntCol xs)
  | _ => Raise TypeError
  end.

(** [a > s] for a Python number [s] *)
Definition col_gt_scalar (a : column) (s : scalar) : outcome column :=
  match a, s with
  | IntCol xs, SInt z => Ret (BoolCol ((λ x, z <? x) <$> xs))
  | _, _ =>
      obind (as_float a) (λ xs,
      Ret (BoolCol ((λ x, flt (scalar_float s) x) <$> xs)))
  end.

(** [a & b] on boolean columns *)
Definition col_and (a b : column) : outcome column :=
  match a, b with
  | BoolCol xs, BoolCol ys => Ret (BoolCol (zip_with andb xs ys))
  | _, _ => Raise TypeError
  end.

(** [a.dt.hour] *)
Definition dt_hour (a : column) : outcome column :=
  match a with
  | TimeCol ts => Ret (IntCol (hour <$> ts))
  | _ => Raise AttributeError
  end.

(** [a.apply(f)] for a Python function from numbers to strings *)
Definition col_apply (f : Z -> string) (a : column) : outcome column :=
  match a with
  | IntCol xs => Ret (ObjCol (f <$> xs))
  | _ => Raise TypeError
  end.

(** *** Reductions of a column to a scalar *)

Definition count_true (bs : list bool) : Z :=
  Z.of_nat (length (filter (λ b, b = true) bs)).

(** [a.sum()] *)
Definition col_sum (a : column) : outcome scalar :=
  match a with
  | IntCol xs => Ret (SInt (Int64.sum xs))
  | FloatCol xs => Ret (SFloat (fsum xs))
  | BoolCol bs => Ret (SInt (count_true bs))
  | _ => Raise TypeError
  end.

(** [a.mean()] *)
Definition col_mean (a : column) : outcome scalar :=
  match a with
  | IntCol xs => Ret (SFloat (fmean (of_int <$> xs)))
  | FloatCol xs => Ret (SFloat (fmean xs))
  | BoolCol bs => Ret (SFloat (fdiv (of_int (count_true bs)) (of_int (Z.of_nat (length bs)))))
  | _ => Raise TypeError
  end.

(** [a.count()]: the values that are not missing *)
Definition col_count (a : column) : scalar :=
  match a with
  | FloatCol xs => SInt (Z.of_nat (length (filter (λ x, is_nan x = false) xs)))
  | _ => SInt (Z.of_nat (col_len a))
  end.

(** Arithmetic on numpy scalars: [s / n] is a float64 division (a zero
    divisor gives infinity or NaN with a warning, not an exception). *)
Definition scalar_truediv (s t : scalar) : scalar :=
  SFloat (fdiv (scalar_float s) (scalar_float t)).

Definition scalar_mul (s t : scalar) : scalar :=
  match s, t with
  | SInt a, SInt b => SInt (Int64.mul a b)
  | _, _ => SFloat (fmul (scalar_float s) (scalar_float t))
  end.

Definition scalar_round (decimals : Z) (s : scalar) : scalar :=
  match s with
  | SInt z => SInt z
  | SFloat x => SFloat (np_round decimals x)
  end.

(** *** Frames: item access, row selection, renaming *)

(** [f[key]] *)
Definition frame_get (key : string) (f : DataFrame) : outcome column :=
  match cols f !! key with
  | Some c => Ret c
  | None => Raise (KeyError key)
  end.

(** [f[key] = c]: the column must be as long as the frame. *)
Definition frame_set (key : string) (c : column) (f : DataFrame) : outcome DataFrame :=
  if Nat.eqb (col_len c) (nrows f)
  then Ret {| nrows := nrows f; cols := <[key := c]> (cols f); index := index f |}
  else Raise ValueError.

(** The rows at the positions [idx], in that order. *)
Definition take_list {A} (idx : list nat) (xs : list A) : list A :=
  omap (λ i, xs !! i) idx.

Definition col_take (idx : list nat) (c : column) : column :=
  match c with
  | IntCol xs => IntCol (take_list idx xs)
  | FloatCol xs => FloatCol (take_list idx xs)
  | BoolCol xs => BoolCol (take_list idx xs)
  | ObjCol xs => ObjCol (take_list idx xs)
  | TimeCol xs => TimeCol (take_list idx xs)
  end.

Definition frame_take (idx : list nat) (f : DataFrame) : DataFrame :=
  {| nrows := length idx;
     cols := col_take idx <$> cols f;
     index := (λ p, (p.1, col_take idx p.2)) <$> index f |}.

(** [f.round(decimals)]: every float column is rounded. *)
Definition frame_round (decimals : Z) (f : DataFrame) : DataFrame :=
  {| nrows := nrows f;
     cols := (λ c, match c with
                   | FloatCol xs => FloatCol (np_round decimals <$> xs)
                   | _ => c
                   end) <$> cols f;
     index := index f |}.

(** [f.reset_index()]: a named index becomes a column. *)
Definition reset_index (f : DataFrame) : outcome DataFrame :=
  match index f with
  | None => Ret f
  | Some (name, c) =>
      match cols f !! name with
      | Some _ => Raise ValueError
      | None => Ret {| nrows := nrows f; cols := <[name := c]> (cols f); index := None |}
      end
  end.

(** [f.rename(columns={old: new})]; a name that is absent is ignored. *)
Definition rename_col (old new : string) (f : DataFrame) : DataFrame :=
  match cols f !! old with
  | Some c =>
      {| nrows := nrows f; cols := <[new := c]> (delete old (cols f)); index := index f |}
  | None => f
  end.

Definition rename (columns : list (string * string)) (f : DataFrame) : DataFrame :=
  fold_left (λ g p, rename_col p.1 p.2 g) columns f.

(** [f[[k1, ..., kn]]]: the frame restricted to the listed columns. *)
Fixpoint select_cols (keys : list string) (f : DataFrame) : outcome (gmap string column) :=
  match keys with
  | [] => Ret ∅
  | k :: ks =>
      obind (frame_get k f) (λ c,
      obind (select_cols ks f) (λ m, Ret (<[k := c]> m)))
  end.

Definition frame_select (keys : list string) (f : DataFrame) : outcome DataFrame :=
  obind (select_cols keys f) (λ m,
  Ret {| nrows := nrows f; cols := m; index := index f |}).

(** *** Group-by and aggregation *)

(** The distinct keys in sorted order ([groupby] sorts its keys). *)
Fixpoint insert_key (k : string) (ks : list string) : list string :=
  match ks with
  | [] => [k]
  | k' :: r =>
      match String.compare k k' with
      | Lt => k :: ks
      | Eq => ks
      | Gt => k' :: insert_key k r
      end
  end.

Definition group_keys (ks : list string) : list string :=
  foldr insert_key [] ks.

(** The values of the rows whose key is [g], in row order. *)
Definition group_select {A} (ks : list string) (g : string) (xs : list A) : list A :=
  snd <$> filter (λ p, p.1 = g) (zip ks xs).

Inductive aggfun : Type := AggMean | AggSum | AggCount.

Definition agg_col (fn : aggfun) (ks gs : list string) (c : column) : outcome column :=
  match fn, c with
  | AggMean, IntCol xs =>
      Ret (FloatCol ((λ g, fmean (of_int <$> group_select ks g xs)) <$> gs))
  | AggMean, FloatCol xs =>
      Ret (FloatCol ((λ g, fmean (group_select ks g xs)) <$> gs))
  | AggSum, IntCol xs =>
      Ret (IntCol ((λ g, Int64.sum (group_select ks g xs)) <$> gs))
  | AggSum, FloatCol xs =>
      Ret (FloatCol ((λ g, fsum (group_select ks g xs)) <$> gs))
  | AggSum, BoolCol bs =>
      Ret (IntCol ((λ g, count_true (group_select ks g bs)) <$> gs))
  | AggCount, FloatCol xs =>
      Ret (IntCol ((λ g, Z.of_nat (length (filter (λ x, is_nan x = false)
                                                 (group_select ks g xs)))) <$> gs))
  | AggCount, IntCol xs =>
      Ret (IntCol ((λ g, Z.of_nat (length (group_select ks g xs))) <$> gs))
  | AggCount, BoolCol xs =>
      Ret (IntCol ((λ g, Z.of_nat (length (group_select ks g xs))) <$> gs))
  | AggCount, ObjCol xs =>
      Ret (IntCol ((λ g, Z.of_nat (length (group_select ks g xs))) <$> gs))
  | AggCount, TimeCol xs =>
      Ret (IntCol ((λ g, Z.of_nat (length (group_select ks g xs))) <$> gs))
  | _, _ => Raise TypeError
  end.

Fixpoint agg_cols (spec : list (string * aggfun)) (ks gs : list string) (f : DataFrame)
  : outcome (gmap string column) :=
  match spec with
  | [] => Ret ∅
  | (k, fn) :: rest =>
      obind (frame_get k f) (λ c,
      obind (agg_col fn ks gs c) (λ a,
      obind (agg_cols rest ks gs f) (λ m, Ret (<[k := a]> m))))
  end.

(** [f.groupby(key).agg(spec)]: one row per distinct key, the keys as the
    index of the result.  The key column holds strings. *)
Definition groupby_agg (key : string) (spec : list (string * aggfun)) (f : DataFrame)
  : outcome DataFrame :=
  obind (frame_get key f) (λ kc,
  match kc with
  | ObjCol ks =>
      let gs := group_keys ks in
      obind (agg_cols spec ks gs f) (λ m,
      Ret {| nrows := length gs; cols := m; index := Some (key, ObjCol gs) |})
  | _ => Raise TypeError
  end).

(** *** Sorting *)

(** [numpy.argsort] with the default kind, which [sort_values] uses when
    no [kind] is passed: the positions in ascending order of the values.
    The default kind is not a stable sort, so the interface says nothing
    about the order of positions that hold equal values. *)
Class Argsort : Type :=
  { argsort : list float -> list nat;
    argsort_perm : ∀ xs, argsort xs ≡ₚ seq 0 (length xs);
    argsort_sorted : ∀ xs i j a b x y,
        Forall (λ v, is_nan v = false) xs ->
        (i < j)%nat ->
        argsort xs !! i = Some a -> argsort xs !! j = Some b ->
        xs !! a = Some x -> xs !! b = Some y ->
        fle x y = true }.

Definition fnth (xs : list float) (i : nat) : float := default nan (xs !! i).

(** [pandas.core.sorting.nargsort] with [na_position='last']: NaN is set
    aside, a descending sort reverses the values, sorts them ascending
    and reverses the result. *)
Definition nargsort `{Argsort} (items : list float) (ascending : bool) : list nat :=
  let idx := seq 0 (length items) in
  let non_nan_idx := filter (λ i, is_nan (fnth items i) = false) idx in
  let nan_idx := filter (λ i, is_nan (fnth items i) = true) idx in
  let non_nans := take_list non_nan_idx items in
  let non_nans := if ascending then non_nans else reverse non_nans in
  let non_nan_idx := if ascending then non_nan_idx else reverse non_nan_idx in
  let indexer := take_list (argsort non_nans) non_nan_idx in
  let indexer := if ascending then indexer else reverse indexer in
  indexer ++ nan_idx.

(** [f.sort_values(by, ascending=...)] on a float column *)
Definition sort_values `{Argsort} (by_ : string) (ascending : bool) (f : DataFrame)
  : outcome DataFrame :=
  obind (frame_get by_ f) (λ c,
  match c with
  | FloatCol xs => Ret (frame_take (nargsort xs ascending) f)
  | _ => Raise TypeError
  end).

(** Insertion sort of positions; [before i j] says that [i], which stood
    before [j], stays before it. *)
Fixpoint insert_by (before : nat -> nat -> bool) (i : nat) (l : list nat) : list nat :=
  match l with
  | [] => [i]
  | j :: r => if before i j then i :: l else j :: insert_by before i r
  end.

Definition isort_by (before : nat -> nat -> bool) (l : list nat) : list nat :=
  foldr (insert_by before) [] l.

(** [f.nlargest(n, column)] with the default [keep='first']: the first
    [n] rows in descending order of the column, rows with equal values in
    their original order, rows without a value (NaN) after all others. *)
Definition nlargest_indexer (n : nat) (xs : list float) : list nat :=
  let idx := seq 0 (length xs) in
  let non_nan_idx := filter (λ i, is_nan (fnth xs i) = false) idx in
  let nan_idx := filter (λ i, is_nan (fnth xs i) = true) idx in
  take n (isort_by (λ i j, negb (flt (fnth xs i) (fnth xs j))) non_nan_idx ++ nan_idx).

Definition nlargest (n : nat) (column_ : string) (f : DataFrame) : outcome DataFrame :=
  obind (frame_get column_ f) (λ c,
  match c with
  | FloatCol xs => Ret (frame_take (nlargest_indexer n xs) f)
  | _ => Raise TypeError
  end).

(** [pandas.to_datetime] on a column, given how one string parses. *)
Definition to_datetime_col (parse : string -> option datetime) (c : column) : outcome column :=
  match c with
  | ObjCol ss =>
      match mapM parse ss with
      | Some ts => Ret (TimeCol ts)
      | None => Raise ValueError
      end
  | TimeCol ts => Ret (TimeCol ts)
  | _ => Raise TypeError
  end.

End Pandas.

Import Pandas.

Arguments count_true : simpl never.
Arguments group_keys : simpl never.
Arguments group_select : simpl never.
Arguments take_list : simpl never.
Arguments nargsort : simpl never.
Arguments nlargest_indexer : simpl never.

(** ** The object store and the monad of Python statements *)

Module Store.

(** A reference to a data frame object. *)
Definition loc : Type := positive.

(** The [DataProcessor] object: [__init__] sets [data_path] and
    [df = None]. *)
Record DataProcessor : Type :=
  { data_path : string;
    df : option loc }.

Record state : Type :=
  { self : DataProcessor;
    heap : gmap loc DataFrame }.

(** A statement runs on a state and ends in a value or an exception;
    either way the state is what the statement made of it. *)
Definition M (A : Type) : Type := state -> outcome A * state.

Definition ret {A} (a : A) : M A := λ s, (Ret a, s).

Definition raise {A} (e : exn) : M A := λ s, (Raise e, s).

Definition bind {A B} (c : M A) (k : A -> M B) : M B :=
  λ s, match c s with
       | (Ret a, s') => k a s'
       | (Raise e, s') => (Raise e, s')
       end.

(** [try: c except Exception as e: h e] *)
Definition try_except {A} (c : M A) (h : exn -> M A) : M A :=
  λ s, match c s with
       | (Ret a, s') => (Ret a, s')
       | (Raise e, s') => h e s'
       end.

Definition lift {A} (o : outcome A) : M A := λ s, (o, s).

Definition get_self : M DataProcessor := λ s, (Ret (self s), s).

(** [self.df = v] *)
Definition set_df (v : option loc) : M unit :=
  λ s, (Ret tt, {| self := {| data_path := data_path (self s); df := v |};
                   heap := heap s |}).

(** A new object, at a reference not in use. *)
Definition new (f : DataFrame) : M loc :=
  λ s, let l := fresh (dom (heap s)) in
       (Ret l, {| self := self s; heap := <[l := f]> (heap s) |}).

(** Every Python reference points to an object; for a reference outside
    the store, which no Python program can hold, the model raises. *)
Definition deref (l : loc) : M DataFrame :=
  λ s, match heap s !! l with
       | Some f => (Ret f, s)
       | None => (Raise TypeError, s)
       end.

Definition store (l : loc) (f : DataFrame) : M unit :=
  λ s, (Ret tt, {| self := self s; heap := <[l := f]> (heap s) |}).

End Store.

Import Store.

Notation "'let*' x ':=' c 'in' k" := (bind c (λ x, k))
  (at level 10, x name, c at level 100, k at level 200).
Notation "c ';;' k" := (bind c (λ _, k))
  (at level 100, k at level 200, right associativity).

(** [l[key]] *)
Definition getitem (l : loc) (key : string) : M column :=
  let* f := deref l in lift (frame_get key f).

(** [l[key] = c]: the object at [l] is changed in place. *)
Definition setitem (l : loc) (key : string) (c : column) : M unit :=
  let* f := deref l in
  let* f' := lift (frame_set key c f) in
  store l f'.

(** [l.copy()] *)
Definition copy (l : loc) : M loc :=
  let* f := deref l in new f.

(** [len(l)] *)
Definition len (l : loc) : M nat :=
  let* f := deref l in ret (nrows f).

(** What the program finds outside itself: the table [pandas.read_csv]
    parses at a path (or the exception it raises), and how
    [pandas.to_datetime] reads one string. *)
Record Env : Type :=
  { read_csv : string -> outcome DataFrame;
    to_datetime : string -> option datetime }.

(** ** [src/data_processor.py]: class [DataProcessor] *)

(** [__init__(self, data_path)] *)
Definition init (path : string) : state :=
  {| self := {| data_path := path; df := None |}; heap := ∅ |}.

(** [self.df], an object to subscript *)
Definition self_df : M loc :=
  let* this := get_self in
  match df this with
  | Some l => ret l
  | None => raise TypeError
  end.

(** [load_data], lines 12-20.  The message printed in the handler is not
    modelled. *)
Definition load_data (E : Env) : M bool :=
  try_except
    (let* this := get_self in
     let* f := lift (read_csv E (data_path this)) in
     let* l := new f in
     set_df (Some l) ;;
     let* d := self_df in
     let* c := getitem d "upload_time" in
     let* t := lift (to_datetime_col (to_datetime E) c) in
     let* d' := self_df in
     setitem d' "upload_time" t ;;
     ret true)
    (λ _, ret false).

(** The five labels of [_categorize_time_period], under the names the
    specification gives them. *)
Definition Morning : string := "早晨 (6-12)".
Definition Midday : string := "中午 (12-14)".
Definition Afternoon : string := "下午 (14-18)".
Definition Evening : string := "晚上 (18-22)".
Definition LateNight : string := "深夜 (22-6)".

(** [_categorize_time_period], lines 41-52 *)
Definition _categorize_time_period (hour : Z) : string :=
  if (6 <=? hour) && (hour <? 12) then Morning
  else if (12 <=? hour) && (hour <? 14) then Midday
  else if (14 <=? hour) && (hour <? 18) then Afternoon
  else if (18 <=? hour) && (hour <? 22) then Evening
  else LateNight.

(** [calculate_metrics], lines 22-39 *)
Definition calculate_metrics : M (option loc) :=
  let* this := get_self in
  match df this with
  | None => ret None
  | Some loaded =>
      let* d := copy loaded in
      let* likes := getitem d "likes" in
      let* comments := getitem d "comments" in
      let* s1 := lift (col_add likes comments) in
      let* shares := getitem d "shares" in
      let* s2 := lift (col_add s1 shares) in
      let* views := getitem d "views" in
      let* q := lift (col_truediv s2 views) in
      let* p := lift (col_mul_scalar q (SInt 100)) in
      let* r := lift (col_round 2 p) in
      setitem d "engagement_rate" r ;;
      let* er := getitem d "engagement_rate" in
      let* c1 := lift (col_gt_scalar er (SInt 5)) in
      let* v := getitem d "views" in
      let* c2 := lift (col_gt_scalar v (SInt 20000)) in
      let* hot := lift (col_and c1 c2) in
      setitem d "is_hot" hot ;;
      let* ut := getitem d "upload_time" in
      let* uh := lift (dt_hour ut) in
      setitem d "upload_hour" uh ;;
      let* uh' := getitem d "upload_hour" in
      let* tp := lift (col_apply _categorize_time_period uh') in
      setitem d "time_period" tp ;;
      ret (Some d)
  end.

(** [get_summary_metrics], lines 54-68; the result is the dictionary. *)
Definition get_summary_metrics (d : loc) : M (gmap string scalar) :=
  let* n := len d in
  let total_videos := SInt (Z.of_nat n) in
  let* v := getitem d "views" in
  let* total_views := lift (col_sum v) in
  let* e := getitem d "engagement_rate" in
  let* avg_engagement_rate := lift (col_mean e) in
  let* h := getitem d "is_hot" in
  let* hot_videos_count := lift (col_sum h) in
  let hot_videos_rate :=
    scalar_round 2 (scalar_mul (scalar_truediv hot_videos_count total_videos) (SInt 100)) in
  ret (<["total_videos" := total_videos]>
       (<["total_views" := total_views]>
       (<["avg_engagement_rate" := avg_engagement_rate]>
       (<["hot_videos_count" := hot_videos_count]>
       (<["hot_videos_rate" := hot_videos_rate]> ∅))))).

(** [get_content_type_analysis], lines 70-86 *)
Definition get_content_type_analysis `{Argsort} (d : loc) : M loc :=
  let* f := deref d in
  let* a := lift (groupby_agg "content_type"
                    [("views", AggMean); ("engagement_rate", AggMean);
                     ("video_id", AggCount); ("is_hot", AggSum)] f) in
  let* r := lift (reset_index (frame_round 2 a)) in
  let* content_stats := new r in
  let* f1 := deref content_stats in
  let* content_stats := new (rename [("video_id", "video_count"); ("is_hot", "hot_videos")] f1) in
  let* hv := getitem content_stats "hot_videos" in
  let* vc := getitem content_stats "video_count" in
  let* q := lift (col_truediv hv vc) in
  let* p := lift (col_mul_scalar q (SInt 100)) in
  let* hr := lift (col_round 2 p) in
  setitem content_stats "hot_rate" hr ;;
  let* f2 := deref content_stats in
  let* sorted := lift (sort_values "engagement_rate" false f2) in
  new sorted.

(** [get_time_period_analysis], lines 88-100 *)
Definition get_time_period_analysis `{Argsort} (d : loc) : M loc :=
  let* f := deref d in
  let* a := lift (groupby_agg "time_period"
                    [("views", AggMean); ("engagement_rate", AggMean);
                     ("video_id", AggCount)] f) in
  let* r := lift (reset_index (frame_round 2 a)) in
  let* time_stats := new r in
  let* f1 := deref time_stats in
  let* time_stats := new (rename [("video_id", "video_count")] f1) in
  let* f2 := deref time_stats in
  let* sorted := lift (sort_values "engagement_rate" false f2) in
  new sorted.

(** ** [src/dashboard.py]: the ranking of [display_video_ranking] *)

(** Lines 153-163: the composite score and the ten best rows,
    [top_videos].  What follows in the method formats and renders that
    table and is not modelled. *)
Definition display_video_ranking (d : loc) : M loc :=
  let* df_rank := copy d in
  let* er := getitem df_rank "engagement_rate" in
  let* a := lift (col_mul_scalar er (SFloat (dec 4 1))) in
  let* v := getitem df_rank "views" in
  let* v1 := lift (col_div_scalar v (SInt 1000)) in
  let* b := lift (col_mul_scalar v1 (SFloat (dec 3 1))) in
  let* ab := lift (col_add a b) in
  let* cr := getitem df_rank "completion_rate" in
  let* c1 := lift (col_mul_scalar cr (SInt 100)) in
  let* c2 := lift (col_mul_scalar c1 (SFloat (dec 3 1))) in
  let* score := lift (col_add ab c2) in
  setitem df_rank "composite_score" score ;;
  let* f := deref df_rank in
  let* top := lift (nlargest 10 "composite_score" f) in
  let* top_videos := lift (frame_select
                             ["video_id"; "content_type"; "views"; "engagement_rate";
                              "completion_rate"; "composite_score"; "upload_time"] top) in
  new top_videos.

(** ** A reading of timestamps, and sample tables *)

Definition digit (a : ascii) : option Z :=
  let n := Z.of_nat (nat_of_ascii a) in
  if (48 <=? n) && (n <=? 57) then Some (n - 48) else None.

Definition two_digits (a b : ascii) : option Z :=
  match digit a, digit b with
  | Some x, Some y => Some (10 * x + y)
  | _, _ => None
  end.

(** The format [generate_sample_data] writes (line 132) and the interface
    of the specification names: [YYYY-MM-DD HH:MM:SS]. *)
Definition iso_to_datetime (s : string) : option datetime :=
  match list_ascii_of_string s with
  | [y1; y2; y3; y4; "-"; m1; m2; "-"; d1; d2; " "; h1; h2; ":"; n1; n2; ":"; s1; s2]%char =>
      match two_digits y1 y2, two_digits y3 y4, two_digits m1 m2, two_digits d1 d2,
            two_digits h1 h2, two_digits n1 n2, two_digits s1 s2 with
      | Some yh, Some yl, Some mo, Some dd, Some hh, Some mi, Some ss =>
          if (1 <=? mo) && (mo <=? 12) && (1 <=? dd) && (dd <=? 31)
             && (hh <=? 23) && (mi <=? 59) && (ss <=? 59)
          then Some {| year := 100 * yh + yl; month := mo; day := dd;
                       hour := hh; minute := mi; second := ss |}
          else None
      | _, _, _, _, _, _, _ => None
      end
  | _ => None
  end.

(** The table of the end-to-end scenario of the specification: views
    25000, 10000, 30000 and engagement rates 6.0, 3.0, 7.5. *)
Definition scenario_csv : DataFrame :=
  {| nrows := 3;
     cols := list_to_map
       [("video_id", ObjCol ["V10000"; "V10001"; "V10002"]);
        ("upload_time", ObjCol ["2024-01-05 08:00:00"; "2024-01-06 13:00:00";
                                "2024-01-07 23:00:00"]);
        ("content_type", ObjCol ["tech"; "food"; "tech"]);
        ("duration_sec", IntCol [120; 90; 200]);
        ("views", IntCol [25000; 10000; 30000]);
        ("likes", IntCol [1200; 250; 2000]);
        ("comments", IntCol [200; 30; 150]);
        ("shares", IntCol [100; 20; 100]);
        ("completion_rate", FloatCol [dec 55 2; dec 40 2; dec 70 2]);
        ("creator_id", ObjCol ["C2001"; "C2002"; "C2001"])];
     index := None |}.

Definition scenario_env : Env :=
  {| read_csv := λ path, if decide (path = "data/sample_data.csv")
                         then Ret scenario_csv else Raise (OSError path);
     to_datetime := iso_to_datetime |}.

(** ** The order of float64 *)

(** A key whose lexicographic order is the order [SFcompare] computes. *)
Definition fkey (x : float) : Z * Z * Z :=
  match x with
  | S754_infinity true => (-2, 0, 0)
  | S754_finite true m e => (-1, - e, Zneg m)
  | S754_zero _ => (0, 0, 0)
  | S754_finite false m e => (1, e, Zpos m)
  | S754_infinity false => (2, 0, 0)
  | S754_nan => (3, 0, 0)
  end.

Definition kle (a b : Z * Z * Z) : Prop :=
  a.1.1 < b.1.1 ∨ (a.1.1 = b.1.1 ∧ (a.1.2 < b.1.2 ∨ (a.1.2 = b.1.2 ∧ a.2 <= b.2))).

Definition klt (a b : Z * Z * Z) : Prop :=
  a.1.1 < b.1.1 ∨ (a.1.1 = b.1.1 ∧ (a.1.2 < b.1.2 ∨ (a.1.2 = b.1.2 ∧ a.2 < b.2))).

Lemma SFcompare_fkey x y :
  is_nan x = false -> is_nan y = false ->
  ∃ c, SFcompare x y = Some c ∧
       (c = Lt -> klt (fkey x) (fkey y)) ∧
       (c = Eq -> fkey x = fkey y) ∧
       (c = Gt -> klt (fkey y) (fkey x)).
Proof.
  intros Hx Hy.
  destruct x as [[]|[]| |[] m1 e1], y as [[]|[]| |[] m2 e2]; try discriminate;
    simpl; unfold klt; simpl;
    try (eexists; split; [reflexivity|]; repeat split; intros; try discriminate; lia).
  all: change (Pos.compare_cont Eq m1 m2) with (m1 ?= m2)%positive.
  all: destruct (Z.compare_spec e1 e2); [destruct (Pos.compare_spec m1 m2)|..]; subst; simpl.
  all: eexists; (split; [reflexivity|]); repeat split; intros; try discriminate; try lia.
Qed.

Lemma fle_fkey x y :
  is_nan x = false -> is_nan y = false ->
  fle x y = true ↔ kle (fkey x) (fkey y).
Proof.
  intros Hx Hy. unfold fle, SFleb.
  destruct (SFcompare_fkey x y Hx Hy) as (c & -> & HLt & HEq & HGt).
  unfold kle, klt in *.
  destruct c; [specialize (HEq eq_refl) | specialize (HLt eq_refl) | specialize (HGt eq_refl)].
  - rewrite HEq. split; [lia | done].
  - split; [lia | done].
  - split; [done | lia].
Qed.


Lemma fle_trans x y z :
  is_nan x = false -> is_nan y = false -> is_nan z = false ->
  fle x y = true -> fle y z = true -> fle x z = true.
Proof.
  intros Hx Hy Hz. rewrite !fle_fkey by done. unfold kle. lia.
Qed.

Lemma fle_total x y :
  is_nan x = false -> is_nan y = false ->
  fle x y = false -> fle y x = true.
Proof.
  intros Hx Hy Hxy. apply fle_fkey; [done..|].
  destruct (decide (kle (fkey x) (fkey y))) as [H|H].
  - apply fle_fkey in H; [congruence | done..].
  - unfold kle in *. lia.
Qed.



(** ** Insertion sort of positions *)

Section InsertionSort.

Variable before : nat -> nat -> bool.
Variable R : nat -> nat -> Prop.
Variable P : nat -> Prop.

(** [before i j] is only ever asked for a position [i] that stood before
    [j] in the list to sort, which is in increasing order. *)
Hypothesis before_true : ∀ i j, P i -> P j -> (i < j)%nat -> before i j = true -> R i j.
Hypothesis before_false : ∀ i j, P i -> P j -> (i < j)%nat -> before i j = false -> R j i.
Hypothesis R_trans : ∀ i j k, P i -> P j -> P k -> R i j -> R j k -> R i k.

Lemma insert_by_perm i l : insert_by before i l ≡ₚ i :: l.
Proof.
  induction l as [|j l IH]; simpl; [done|].
  destruct (before i j); [done|].
  rewrite IH. apply Permutation_swap.
Qed.

Lemma isort_by_perm l : isort_by before l ≡ₚ l.
Proof.
  induction l as [|i l IH]; simpl; [done|].
  unfold isort_by in *. simpl. rewrite insert_by_perm. by rewrite IH.
Qed.

Lemma insert_by_sorted i l :
  P i -> Forall P l -> Forall (λ j, (i < j)%nat) l ->
  StronglySorted R l -> StronglySorted R (insert_by before i l).
Proof.
  intros Hi. induction l as [|j l IH]; intros HP Hlt Hs; simpl.
  - repeat constructor.
  - apply Forall_cons in HP as [Hj HP].
    apply Forall_cons in Hlt as [Hij Hlt].
    apply StronglySorted_cons in Hs as [Hjl Hs].
    destruct (before i j) eqn:Hb.
    + apply StronglySorted_cons. split; [|by apply StronglySorted_cons].
      apply Forall_cons. split; [by apply before_true|].
      rewrite Forall_forall in Hjl, HP. apply Forall_forall. intros k Hk.
      apply (R_trans i j k); auto.
    + apply StronglySorted_cons. split; [|by apply IH].
      rewrite insert_by_perm. apply Forall_cons. split; [by apply before_false|done].
Qed.

Lemma isort_by_sorted l :
  Forall P l -> StronglySorted lt l -> StronglySorted R (isort_by before l).
Proof.
  induction l as [|i l IH]; intros HP Hlt; unfold isort_by in *; simpl.
  - constructor.
  - apply Forall_cons in HP as [Hi HP].
    apply StronglySorted_cons in Hlt as [Hil Hlt].
    apply insert_by_sorted; [done| | |by apply IH].
    + fold (isort_by before l). by rewrite isort_by_perm.
    + fold (isort_by before l). by rewrite isort_by_perm.
Qed.

End InsertionSort.

Lemma StronglySorted_lookup {A} (R : A -> A -> Prop) (l : list A) i j a b :
  StronglySorted R l -> (i < j)%nat -> l !! i = Some a -> l !! j = Some b -> R a b.
Proof.
  intros Hs. revert i j. induction Hs as [|x l Hs IH Hx]; intros i j Hij Hi Hj; [done|].
  destruct i as [|i], j as [|j]; simpl in *; try lia.
  - injection Hi as ->. rewrite Forall_forall in Hx. apply Hx.
    by apply list_elem_of_lookup_2 in Hj.
  - apply (IH i j); [lia|done..].
Qed.

Lemma StronglySorted_lt_seq a n : StronglySorted lt (seq a n).
Proof.
  revert a. induction n as [|n IH]; intros a; simpl; constructor; [apply IH|].
  apply Forall_forall. intros i Hi. apply elem_of_seq in Hi. lia.
Qed.


(** ** Two sorts that meet the [Argsort] interface *)

(** Positions in ascending order of their values, equal values in their
    order of appearance. *)
Definition stable_argsort (xs : list float) : list nat :=
  isort_by (λ i j, fle (fnth xs i) (fnth xs j)) (seq 0 (length xs)).


Lemma Forall_seq_not_nan (xs : list float) :
  Forall (λ v, is_nan v = false) xs ->
  Forall (λ i, is_nan (fnth xs i) = false) (seq 0 (length xs)).
Proof.
  intros Hxs. apply Forall_forall. intros i Hi.
  apply elem_of_seq in Hi as [_ Hi]. simpl in Hi.
  destruct (lookup_lt_is_Some_2 xs i Hi) as [v Hv].
  unfold fnth. rewrite Hv. simpl.
  rewrite Forall_forall in Hxs. apply Hxs. by eapply list_elem_of_lookup_2.
Qed.

Lemma isort_by_ascending (cmp : float -> float -> bool) (xs : list float) i j a b x y :
  (∀ u v, is_nan u = false -> is_nan v = false -> cmp u v = true -> fle u v = true) ->
  (∀ u v, is_nan u = false -> is_nan v = false -> cmp u v = false -> fle v u = true) ->
  Forall (λ v, is_nan v = false) xs ->
  (i < j)%nat ->
  isort_by (λ i j, cmp (fnth xs i) (fnth xs j)) (seq 0 (length xs)) !! i = Some a ->
  isort_by (λ i j, cmp (fnth xs i) (fnth xs j)) (seq 0 (length xs)) !! j = Some b ->
  xs !! a = Some x -> xs !! b = Some y ->
  fle x y = true.
Proof.
  intros Ht Hf Hxs Hij Ha Hb Hx Hy.
  pose proof (isort_by_sorted (λ i j, cmp (fnth xs i) (fnth xs j))
                (λ i j, fle (fnth xs i) (fnth xs j) = true)
                (λ i, is_nan (fnth xs i) = false)) as Hs.
  simpl in Hs.
  specialize (Hs (λ i j Hi Hj _, Ht _ _ Hi Hj) (λ i j Hi Hj _, Hf _ _ Hi Hj)
                 (λ i j k Hi Hj Hk, fle_trans _ _ _ Hi Hj Hk)
                 _ (Forall_seq_not_nan xs Hxs) (StronglySorted_lt_seq 0 (length xs))).
  pose proof (StronglySorted_lookup _ _ i j a b Hs Hij Ha Hb) as HR.
  simpl in HR. unfold fnth in HR. by rewrite Hx, Hy in HR.
Qed.

Lemma stable_argsort_perm xs : stable_argsort xs ≡ₚ seq 0 (length xs).
Proof. apply isort_by_perm. Qed.

Lemma stable_argsort_sorted xs i j a b x y :
  Forall (λ v, is_nan v = false) xs ->
  (i < j)%nat ->
  stable_argsort xs !! i = Some a -> stable_argsort xs !! j = Some b ->
  xs !! a = Some x -> xs !! b = Some y ->
  fle x y = true.
Proof.
  intros Hxs Hij Ha Hb Hx Hy.
  eapply (isort_by_ascending fle xs i j a b); eauto using fle_total.
Qed.



Definition stable_sort : Argsort :=
  {| argsort := stable_argsort;
     argsort_perm := stable_argsort_perm;
     argsort_sorted := stable_argsort_sorted |}.


(** ** What [calculate_metrics] computes *)

(** The columns [calculate_metrics] reads, as [load_data] leaves them. *)
Record loaded_schema (f : DataFrame)
    (likes comments shares views : list Z) (times : list datetime) : Prop :=
  { sch_likes : cols f !! "likes" = Some (IntCol likes);
    sch_comments : cols f !! "comments" = Some (IntCol comments);
    sch_shares : cols f !! "shares" = Some (IntCol shares);
    sch_views : cols f !! "views" = Some (IntCol views);
    sch_times : cols f !! "upload_time" = Some (TimeCol times);
    len_likes : length likes = nrows f;
    len_comments : length comments = nrows f;
    len_shares : length shares = nrows f;
    len_views : length views = nrows f;
    len_times : length times = nrows f }.

Definition engagement_col (likes comments shares views : list Z) : list float :=
  np_round 2 <$>
    ((λ x, fmul x (of_int 100)) <$>
       zip_with fdiv (of_int <$> zip_with Int64.add (zip_with Int64.add likes comments) shares)
                     (of_int <$> views)).

Definition is_hot_col (er : list float) (views : list Z) : list bool :=
  zip_with andb ((λ x, flt (of_int 5) x) <$> er) ((λ x, 20000 <? x) <$> views).

Definition derived (f : DataFrame)
    (likes comments shares views : list Z) (times : list datetime) : DataFrame :=
  let er := engagement_col likes comments shares views in
  {| nrows := nrows f;
     cols := <["time_period" := ObjCol (_categorize_time_period <$> (hour <$> times))]>
            (<["upload_hour" := IntCol (hour <$> times)]>
            (<["is_hot" := BoolCol (is_hot_col er views)]>
            (<["engagement_rate" := FloatCol er]> (cols f))));
     index := index f |}.


(** *** Running a statement step by step *)

Lemma bind_run {A B} (c : M A) (k : A -> M B) s a s' :
  c s = (Ret a, s') -> bind c k s = k a s'.
Proof. intros H. unfold bind. by rewrite H. Qed.

Lemma bind_raise {A B} (c : M A) (k : A -> M B) s e s' :
  c s = (Raise e, s') -> bind c k s = (Raise e, s').
Proof. intros H. unfold bind. by rewrite H. Qed.

Lemma deref_run s l f : heap s !! l = Some f -> deref l s = (Ret f, s).
Proof. intros H. unfold deref. by rewrite H. Qed.

Lemma getitem_run s l f k c :
  heap s !! l = Some f -> cols f !! k = Some c -> getitem l k s = (Ret c, s).
Proof.
  intros Hl Hk. unfold getitem. rewrite (bind_run _ _ _ _ _ (deref_run _ _ _ Hl)).
  unfold lift, frame_get. by rewrite Hk.
Qed.

Lemma setitem_run s l f k c :
  heap s !! l = Some f -> col_len c = nrows f ->
  setitem l k c s =
    (Ret tt, {| self := self s;
                heap := <[l := {| nrows := nrows f; cols := <[k := c]> (cols f);
                                  index := index f |}]> (heap s) |}).
Proof.
  intros Hl Hlen. unfold setitem. rewrite (bind_run _ _ _ _ _ (deref_run _ _ _ Hl)).
  unfold lift, frame_set, bind. rewrite Hlen, Nat.eqb_refl. done.
Qed.

Lemma copy_run s l f :
  heap s !! l = Some f ->
  copy l s = (Ret (fresh (dom (heap s))),
              {| self := self s; heap := <[fresh (dom (heap s)) := f]> (heap s) |}).
Proof.
  intros Hl. unfold copy. by rewrite (bind_run _ _ _ _ _ (deref_run _ _ _ Hl)).
Qed.

Lemma len_run s l f : heap s !! l = Some f -> len l s = (Ret (nrows f), s).
Proof.
  intros Hl. unfold len. by rewrite (bind_run _ _ _ _ _ (deref_run _ _ _ Hl)).
Qed.

(** Side conditions of a step: a lookup in the store or in a frame. *)
Ltac lookup_now :=
  simpl;
  first [ apply lookup_insert_eq
        | eassumption
        | etrans; [apply lookup_insert_ne; done | lookup_now]
        | etrans; [apply lookup_delete_ne; done | lookup_now] ].

Ltac len_now :=
  simpl; repeat first [rewrite length_fmap | rewrite length_zip_with]; simpl; lia.

(** One statement of a [let*] sequence. *)
Ltac step :=
  lazymatch goal with
  | |- bind (getitem _ _) _ _ = _ =>
      erewrite bind_run by (eapply getitem_run; lookup_now)
  | |- bind (setitem _ _ _) _ _ = _ =>
      erewrite bind_run by (eapply setitem_run; [lookup_now | len_now])
  | |- bind (copy _) _ _ = _ =>
      erewrite bind_run by (eapply copy_run; lookup_now)
  | |- bind (deref _) _ _ = _ =>
      erewrite bind_run by (eapply deref_run; lookup_now)
  | |- bind (len _) _ _ = _ =>
      erewrite bind_run by (eapply len_run; lookup_now)
  | |- bind (lift _) _ _ = _ =>
      erewrite bind_run by (unfold lift; simpl; reflexivity)
  | |- bind (new _) _ _ = _ =>
      erewrite bind_run by (unfold new; reflexivity)
  end; simpl.

Lemma calculate_metrics_run s l f likes comments shares views times :
  df (self s) = Some l ->
  heap s !! l = Some f ->
  loaded_schema f likes comments shares views times ->
  calculate_metrics s =
    (Ret (Some (fresh (dom (heap s)))),
     {| self := self s;
        heap := <[fresh (dom (heap s)) := derived f likes comments shares views times]> (heap s) |}).
Proof.
  intros Hdf Hl [H1 H2 H3 H4 H5 L1 L2 L3 L4 L5].
  unfold calculate_metrics.
  erewrite bind_run by reflexivity. rewrite Hdf.
  repeat step.
  unfold ret. rewrite ?insert_insert_eq. reflexivity.
Qed.

(** ** Objects a statement leaves alone *)

(** From [s] to [s'] the processor object and every object of [D] are
    unchanged. *)
Definition keeps (D : gset loc) (s s' : state) : Prop :=
  self s' = self s ∧ D ⊆ dom (heap s') ∧ ∀ l, l ∈ D -> heap s' !! l = heap s !! l.

(** Started with the objects of [D] in the store, the statement [c]
    leaves them and the processor object unchanged, whether it returns or
    raises, and a value it returns satisfies [Q]. *)
Definition safe {A} (D : gset loc) (c : M A) (Q : A -> Prop) : Prop :=
  ∀ s, D ⊆ dom (heap s) ->
       keeps D s (c s).2 ∧ ∀ a, (c s).1 = Ret a -> Q a.

Lemma keeps_refl D s : D ⊆ dom (heap s) -> keeps D s s.
Proof. done. Qed.

Lemma keeps_trans D s1 s2 s3 : keeps D s1 s2 -> keeps D s2 s3 -> keeps D s1 s3.
Proof.
  intros (H1 & H2 & H3) (H4 & H5 & H6). split_and!; [congruence|done|].
  intros l Hl. rewrite H6, H3; done.
Qed.

Lemma safe_weaken {A} D (c : M A) (Q Q' : A -> Prop) :
  safe D c Q -> (∀ a, Q a -> Q' a) -> safe D c Q'.
Proof. intros Hc HQ s HD. destruct (Hc s HD) as [? ?]. split; auto. Qed.

Lemma safe_bind {A B} D (c : M A) (k : A -> M B) (Q : A -> Prop) (Q' : B -> Prop) :
  safe D c Q -> (∀ a, Q a -> safe D (k a) Q') -> safe D (bind c k) Q'.
Proof.
  intros Hc Hk s HD. destruct (Hc s HD) as [Hkeep HQ].
  unfold bind. destruct (c s) as [[a|e] s1]; simpl in *.
  - destruct (Hk a (HQ a eq_refl) s1) as [Hkeep' HQ']; [apply Hkeep|].
    split; [by eapply keeps_trans|done].
  - split; [done|]. intros b Hb. discriminate.
Qed.

Lemma safe_try_except {A} D (c : M A) (h : exn -> M A) (Q : A -> Prop) :
  safe D c Q -> (∀ e, safe D (h e) Q) -> safe D (try_except c h) Q.
Proof.
  intros Hc Hh s HD. destruct (Hc s HD) as [Hkeep HQ].
  unfold try_except. destruct (c s) as [[a|e] s1]; simpl in *.
  - done.
  - destruct (Hh e s1) as [Hkeep' HQ']; [apply Hkeep|].
    split; [by eapply keeps_trans|done].
Qed.

Lemma safe_ret {A} D (a : A) (Q : A -> Prop) : Q a -> safe D (ret a) Q.
Proof. intros HQ s HD. split; [done|]. intros ? [= <-]. done. Qed.

Lemma safe_raise {A} D e (Q : A -> Prop) : safe D (raise e) Q.
Proof. intros s HD. split; [done|]. intros ? [=]. Qed.

Lemma safe_lift {A} D (o : outcome A) : safe D (lift o) (λ _, True).
Proof. intros s HD. done. Qed.

Lemma safe_get_self D : safe D get_self (λ _, True).
Proof. intros s HD. done. Qed.

Lemma safe_deref D l : safe D (deref l) (λ _, True).
Proof. intros s HD. unfold deref. destruct (heap s !! l); done. Qed.

Lemma safe_new D f : safe D (new f) (λ l, l ∉ D).
Proof.
  intros s HD. unfold new. simpl.
  assert (fresh (dom (heap s)) ∉ D) as Hfresh.
  { intros Hin. apply (is_fresh (dom (heap s))). by apply HD. }
  split; [|by intros ? [= <-]].
  unfold keeps; simpl. split_and!; [done| |].
  - rewrite dom_insert_L. set_solver.
  - intros l Hl. rewrite lookup_insert_ne; [done|]. intros Heq. apply Hfresh. by rewrite Heq.
Qed.

Lemma safe_store D l f : l ∉ D -> safe D (store l f) (λ _, True).
Proof.
  intros Hl s HD. unfold store. simpl. split; [|done].
  unfold keeps; simpl. split_and!; [done| |].
  - rewrite dom_insert_L. set_solver.
  - intros l' Hl'. rewrite lookup_insert_ne; [done|]. intros Heq. apply Hl. by rewrite Heq.
Qed.

Lemma safe_getitem D l k : safe D (getitem l k) (λ _, True).
Proof.
  unfold getitem. eapply safe_bind; [apply safe_deref|]. intros f _. apply safe_lift.
Qed.

Lemma safe_len D l : safe D (len l) (λ _, True).
Proof.
  unfold len. eapply safe_bind; [apply safe_deref|]. intros f _. by apply safe_ret.
Qed.

Lemma safe_setitem D l k c : l ∉ D -> safe D (setitem l k c) (λ _, True).
Proof.
  intros Hl. unfold setitem. eapply safe_bind; [apply safe_deref|]. intros f _.
  eapply safe_bind; [apply safe_lift|]. intros f' _. by apply safe_store.
Qed.

Lemma safe_copy D l : safe D (copy l) (λ l', l' ∉ D).
Proof.
  unfold copy. eapply safe_bind; [apply safe_deref|]. intros f _. apply safe_new.
Qed.

(** The rule for the next statement of a sequence. *)
Ltac safe_step :=
  lazymatch goal with
  | |- safe _ (bind (getitem _ _) _) _ => eapply safe_bind; [apply safe_getitem | intros ? _]
  | |- safe _ (bind (setitem _ _ _) _) _ =>
      eapply safe_bind; [apply safe_setitem; assumption | intros ? _]
  | |- safe _ (bind (lift _) _) _ => eapply safe_bind; [apply safe_lift | intros ? _]
  | |- safe _ (bind (deref _) _) _ => eapply safe_bind; [apply safe_deref | intros ? _]
  | |- safe _ (bind (len _) _) _ => eapply safe_bind; [apply safe_len | intros ? _]
  | |- safe _ (bind get_self _) _ => eapply safe_bind; [apply safe_get_self | intros ? _]
  | |- safe _ (bind (copy _) _) _ => eapply safe_bind; [apply safe_copy | intros ? ?]
  | |- safe _ (bind (new _) _) _ => eapply safe_bind; [apply safe_new | intros ? ?]
  | |- safe _ (new _) _ => eapply safe_weaken; [apply safe_new | done]
  | |- safe _ (ret _) _ => apply safe_ret; done
  end.

Lemma safe_calculate_metrics D : safe D calculate_metrics (λ _, True).
Proof.
  unfold calculate_metrics. safe_step. destruct (df _); [|by apply safe_ret].
  repeat safe_step.
Qed.

Lemma safe_get_summary_metrics D d : safe D (get_summary_metrics d) (λ _, True).
Proof. unfold get_summary_metrics. repeat safe_step. Qed.

Lemma safe_get_content_type_analysis `{Argsort} D d :
  safe D (get_content_type_analysis d) (λ _, True).
Proof. unfold get_content_type_analysis. repeat safe_step. Qed.

Lemma safe_get_time_period_analysis `{Argsort} D d :
  safe D (get_time_period_analysis d) (λ _, True).
Proof. unfold get_time_period_analysis. repeat safe_step. Qed.

Lemma safe_display_video_ranking D d : safe D (display_video_ranking d) (λ _, True).
Proof. unfold display_video_ranking. repeat safe_step. Qed.

(** ** C7: the time-period buckets *)

(** C7. [_categorize_time_period] partitions the 24 hours: every hour from
    0 to 23 gets exactly one of the five labels, which are pairwise
    distinct: Morning exactly for 6 <= h < 12, Midday for 12 <= h < 14,
    Afternoon for 14 <= h < 18, Evening for 18 <= h < 22, and Late Night
    for the remaining hours, 22-23 and 0-5. *)
Theorem C7_time_period_partition (h : Z) :
  0 <= h <= 23 ->
  NoDup [Morning; Midday; Afternoon; Evening; LateNight] ∧
  _categorize_time_period h ∈ [Morning; Midday; Afternoon; Evening; LateNight] ∧
  (_categorize_time_period h = Morning ↔ 6 <= h < 12) ∧
  (_categorize_time_period h = Midday ↔ 12 <= h < 14) ∧
  (_categorize_time_period h = Afternoon ↔ 14 <= h < 18) ∧
  (_categorize_time_period h = Evening ↔ 18 <= h < 22) ∧
  (_categorize_time_period h = LateNight ↔ (22 <= h <= 23 ∨ 0 <= h <= 5)).
Proof.
  intros Hh.
  split; [apply (bool_decide_unpack _); by vm_compute|].
  unfold _categorize_time_period.
  repeat case_match;
    repeat match goal with
      | H : _ && _ = true |- _ => apply andb_true_iff in H as [? ?]
      | H : _ && _ = false |- _ => apply andb_false_iff in H
      end;
    (split; [apply (bool_decide_unpack _); by vm_compute|]);
    split_and!; (split; [intros Heq; try discriminate Heq; lia | intros; try reflexivity; lia]).
Qed.

Lemma C7_time_period_partition_witness :
  0 <= 13 <= 23 ∧ _categorize_time_period 13 = Midday.
Proof.
  split; [lia|].
  apply (C7_time_period_partition 13); lia.
Defined.

(** ** C6: the hot-video flag *)

Lemma is_hot_col_lookup (er : list float) (views : list Z) i e v :
  er !! i = Some e -> views !! i = Some v ->
  is_hot_col er views !! i = Some (flt (of_int 5) e && (20000 <? v)).
Proof.
  intros He Hv. unfold is_hot_col.
  rewrite lookup_zip_with, !list_lookup_fmap, He, Hv. done.
Qed.

Lemma engagement_col_length likes comments shares views n :
  length likes = n -> length comments = n -> length shares = n -> length views = n ->
  length (engagement_col likes comments shares views) = n.
Proof.
  intros. unfold engagement_col.
  repeat first [rewrite length_fmap | rewrite length_zip_with]. lia.
Qed.

Lemma is_hot_col_length er views n :
  length er = n -> length views = n -> length (is_hot_col er views) = n.
Proof.
  intros. unfold is_hot_col.
  repeat first [rewrite length_fmap | rewrite length_zip_with]. lia.
Qed.

(** A table on the thresholds: engagement rates 5.00, 5.01, 5.00, 10.00
    with views 20000, 20001, 40000, 20000. *)
Definition boundary_table : DataFrame :=
  {| nrows := 4;
     cols := list_to_map
       [("video_id", ObjCol ["V1"; "V2"; "V3"; "V4"]);
        ("upload_time", TimeCol (replicate 4 {| year := 2024; month := 1; day := 2;
                                               hour := 9; minute := 0; second := 0 |}));
        ("content_type", ObjCol ["a"; "a"; "b"; "b"]);
        ("views", IntCol [20000; 20001; 40000; 20000]);
        ("likes", IntCol [1000; 1002; 2000; 2000]);
        ("comments", IntCol [0; 0; 0; 0]);
        ("shares", IntCol [0; 0; 0; 0]);
        ("completion_rate", FloatCol (replicate 4 (dec 5 1)))];
     index := None |}.

Definition boundary_state : state :=
  {| self := {| data_path := "data/sample_data.csv"; df := Some 1%positive |};
     heap := {[ 1%positive := boundary_table ]} |}.

(** C6. In the table [calculate_metrics] returns, a record is hot exactly
    when its engagement rate is greater than 5 and its views are greater
    than 20000, both strictly: with an engagement rate of exactly 5.00 or
    with exactly 20000 views it is not hot, with 20001 views and an
    engagement rate of 5.01 it is. *)
Theorem C6_is_hot_strict s l f likes comments shares views times :
  df (self s) = Some l ->
  heap s !! l = Some f ->
  loaded_schema f likes comments shares views times ->
  ∃ d s' g er hot,
    calculate_metrics s = (Ret (Some d), s') ∧
    heap s' !! d = Some g ∧
    cols g !! "engagement_rate" = Some (FloatCol er) ∧
    cols g !! "views" = Some (IntCol views) ∧
    cols g !! "is_hot" = Some (BoolCol hot) ∧
    length er = nrows g ∧ length hot = nrows g ∧
    (∀ i e v, er !! i = Some e -> views !! i = Some v ->
       (hot !! i = Some true ↔ flt (of_int 5) e = true ∧ 20000 < v) ∧
       (e = dec 500 2 -> hot !! i = Some false) ∧
       (v = 20000 -> hot !! i = Some false) ∧
       (e = dec 501 2 -> v = 20001 -> hot !! i = Some true)).
Proof.
  intros Hdf Hl Hsch.
  eexists _, _, _, (engagement_col likes comments shares views), _.
  split; [by eapply calculate_metrics_run|].
  destruct Hsch as [H1 H2 H3 H4 H5 L1 L2 L3 L4 L5].
  split; [simpl; apply lookup_insert_eq|].
  split; [lookup_now|]. split; [lookup_now|]. split; [lookup_now|].
  split; [by apply engagement_col_length|].
  split; [apply is_hot_col_length; [by apply engagement_col_length|done]|].
  intros i e v He Hv. rewrite (is_hot_col_lookup _ _ _ _ _ He Hv).
  split_and!.
  - split.
    + intros [= Hb]. apply andb_true_iff in Hb as [? ?]. split; [done|lia].
    + intros [-> ?]. f_equal. apply Z.ltb_lt. done.
  - intros ->. done.
  - intros ->. by rewrite andb_false_r.
  - intros -> ->. done.
Qed.

Lemma C6_is_hot_strict_witness :
  ∃ d s' g,
    calculate_metrics boundary_state = (Ret (Some d), s') ∧
    heap s' !! d = Some g ∧
    cols g !! "engagement_rate" = Some (FloatCol [dec 500 2; dec 501 2; dec 500 2; dec 1000 2]) ∧
    cols g !! "is_hot" = Some (BoolCol [false; true; false; false]).
Proof.
  destruct (C6_is_hot_strict boundary_state 1%positive boundary_table
              [1000; 1002; 2000; 2000] [0; 0; 0; 0] [0; 0; 0; 0]
              [20000; 20001; 40000; 20000]
              (replicate 4 {| year := 2024; month := 1; day := 2;
                              hour := 9; minute := 0; second := 0 |}))
    as (d & s' & g & er & hot & Hrun & Hg & Her & Hv & Hhot & _).
  - reflexivity.
  - reflexivity.
  - by split.
  - exists d, s', g.
    split; [exact Hrun|]. split; [exact Hg|].
    assert (Hd : (calculate_metrics boundary_state).1 = Ret (Some 2%positive))
      by (by vm_compute).
    rewrite Hrun in Hd. simpl in Hd. injection Hd as ->.
    assert (Hcols :
      (λ g, (cols g !! "engagement_rate", cols g !! "is_hot"))
        <$> heap (calculate_metrics boundary_state).2 !! (2%positive : loc)
      = Some (Some (FloatCol [dec 500 2; dec 501 2; dec 500 2; dec 1000 2]),
              Some (BoolCol [false; true; false; false])))
      by (by vm_compute).
    assert (Hs : (calculate_metrics boundary_state).2 = s') by (by rewrite Hrun).
    rewrite Hs, Hg in Hcols. injection Hcols as -> ->. done.
Defined.

(** ** C9: [calculate_metrics] as a function of the loaded table *)

(** The table [calculate_metrics] builds, written on frames alone, without
    store or processor object; it follows the method statement by
    statement. *)
Definition derive_frame (f : DataFrame) : outcome DataFrame :=
  obind (frame_get "likes" f) (λ likes,
  obind (frame_get "comments" f) (λ comments,
  obind (col_add likes comments) (λ s1,
  obind (frame_get "shares" f) (λ shares,
  obind (col_add s1 shares) (λ s2,
  obind (frame_get "views" f) (λ views,
  obind (col_truediv s2 views) (λ q,
  obind (col_mul_scalar q (SInt 100)) (λ p,
  obind (col_round 2 p) (λ r,
  obind (frame_set "engagement_rate" r f) (λ f1,
  obind (frame_get "engagement_rate" f1) (λ er,
  obind (col_gt_scalar er (SInt 5)) (λ c1,
  obind (frame_get "views" f1) (λ v,
  obind (col_gt_scalar v (SInt 20000)) (λ c2,
  obind (col_and c1 c2) (λ hot,
  obind (frame_set "is_hot" hot f1) (λ f2,
  obind (frame_get "upload_time" f2) (λ ut,
  obind (dt_hour ut) (λ uh,
  obind (frame_set "upload_hour" uh f2) (λ f3,
  obind (frame_get "upload_hour" f3) (λ uh',
  obind (col_apply _categorize_time_period uh') (λ tp,
  frame_set "time_period" tp f3))))))))))))))))))))).

(** What a caller sees of a call of [calculate_metrics]: the table behind
    the reference it returns, [None], or the exception. *)
Definition result_frame (r : outcome (option loc) * state) : outcome (option DataFrame) :=
  match r.1 with
  | Ret (Some d) => Ret (heap r.2 !! d)
  | Ret None => Ret None
  | Raise e => Raise e
  end.

Lemma bind_getitem s d g k {B} (K : column -> M B) :
  heap s !! d = Some g ->
  bind (getitem d k) K s =
    match frame_get k g with Ret c => K c s | Raise e => (Raise e, s) end.
Proof.
  intros Hd. unfold getitem, bind at 1. rewrite (bind_run _ _ _ _ _ (deref_run _ _ _ Hd)).
  unfold lift. by destruct (frame_get k g).
Qed.

Lemma bind_lift {A B} (o : outcome A) (K : A -> M B) s :
  bind (lift o) K s = match o with Ret a => K a s | Raise e => (Raise e, s) end.
Proof. unfold bind, lift. by destruct o. Qed.

Lemma bind_setitem s d g k c {B} (K : unit -> M B) :
  heap s !! d = Some g ->
  bind (setitem d k c) K s =
    match frame_set k c g with
    | Ret g' => K tt {| self := self s; heap := <[d := g']> (heap s) |}
    | Raise e => (Raise e, s)
    end.
Proof.
  intros Hd. unfold setitem, bind at 1. rewrite (bind_run _ _ _ _ _ (deref_run _ _ _ Hd)).
  unfold bind, lift, store. by destruct (frame_set k c g).
Qed.

Ltac sim_step :=
  lazymatch goal with
  | |- context [bind (getitem ?d ?k) _ _] =>
      erewrite bind_getitem by lookup_now;
      lazymatch goal with
      | |- context [frame_get k ?g] => destruct (frame_get k g); simpl
      end
  | |- context [bind (setitem ?d ?k ?c) _ _] =>
      erewrite bind_setitem by lookup_now;
      lazymatch goal with
      | |- context [frame_set k c ?g] => destruct (frame_set k c g); simpl
      end
  | |- context [bind (lift ?o) _ _] =>
      rewrite bind_lift; destruct o; simpl
  end; [|done].

Lemma calculate_metrics_derive s l f :
  df (self s) = Some l ->
  heap s !! l = Some f ->
  result_frame (calculate_metrics s) =
    match derive_frame f with
    | Ret g => Ret (Some g)
    | Raise e => Raise e
    end.
Proof.
  intros Hdf Hl. unfold calculate_metrics, derive_frame.
  erewrite bind_run by reflexivity. rewrite Hdf.
  erewrite bind_run by (eapply copy_run; eassumption).
  repeat sim_step.
  unfold ret, result_frame. simpl. by rewrite lookup_insert_eq.
Qed.

Lemma calculate_metrics_unloaded s :
  df (self s) = None -> calculate_metrics s = (Ret None, s).
Proof.
  intros Hdf. unfold calculate_metrics. erewrite bind_run by reflexivity. by rewrite Hdf.
Qed.

Lemma keeps_calculate_metrics s l f :
  df (self s) = Some l -> heap s !! l = Some f ->
  df (self (calculate_metrics s).2) = Some l ∧ heap (calculate_metrics s).2 !! l = Some f.
Proof.
  intros Hdf Hl.
  destruct (safe_calculate_metrics (dom (heap s)) s) as [(Hself & _ & Hheap) _]; [done|].
  split; [by rewrite Hself|].
  rewrite Hheap; [done|]. apply elem_of_dom. by exists f.
Qed.

(** The engine after a successful load of the scenario table. *)
Definition scenario_state : state :=
  (load_data scenario_env (init "data/sample_data.csv")).2.

(** C9. [calculate_metrics] is a function of the loaded table: on two
    states that hold the same loaded table (two runs on the same input)
    it returns the same table, or raises the same exception, and a second
    call in the same run returns what the first call returned. *)
Theorem C9_calculate_metrics_deterministic s s' l l' f :
  df (self s) = Some l -> heap s !! l = Some f ->
  df (self s') = Some l' -> heap s' !! l' = Some f ->
  result_frame (calculate_metrics s) = result_frame (calculate_metrics s') ∧
  result_frame (calculate_metrics (calculate_metrics s).2) = result_frame (calculate_metrics s) ∧
  result_frame (calculate_metrics s) =
    match derive_frame f with Ret g => Ret (Some g) | Raise e => Raise e end.
Proof.
  intros Hdf Hl Hdf' Hl'.
  destruct (keeps_calculate_metrics s l f Hdf Hl) as [Hdf1 Hl1].
  rewrite (calculate_metrics_derive s l f), (calculate_metrics_derive s' l' f) by done.
  rewrite (calculate_metrics_derive _ l f) by done.
  done.
Qed.

Lemma C9_calculate_metrics_deterministic_witness :
  result_frame (calculate_metrics (calculate_metrics scenario_state).2)
  = result_frame (calculate_metrics scenario_state).
Proof.
  edestruct (C9_calculate_metrics_deterministic scenario_state scenario_state
               1%positive 1%positive)
    as (_ & Hsecond & _).
  - reflexivity.
  - vm_compute. reflexivity.
  - reflexivity.
  - vm_compute. reflexivity.
  - exact Hsecond.
Defined.

(** ** C1: what a failed load leaves behind *)

(** The conversion of the timestamp column, on frames alone. *)
Definition convert_time (E : Env) (f : DataFrame) : outcome DataFrame :=
  obind (frame_get "upload_time" f) (λ c,
  obind (to_datetime_col (to_datetime E) c) (λ t,
  frame_set "upload_time" t f)).

(** [self.df = v], on states. *)
Definition with_df (v : option loc) (s : state) : state :=
  {| self := {| data_path := data_path (self s); df := v |}; heap := heap s |}.

Lemma self_df_run s l : df (self s) = Some l -> self_df s = (Ret l, s).
Proof. intros H. unfold self_df. erewrite bind_run by reflexivity. by rewrite H. Qed.

(** The three ways [load_data] ends. *)
Lemma load_data_cases E s :
  load_data E s =
    match read_csv E (data_path (self s)) with
    | Raise _ => (Ret false, s)
    | Ret f =>
        let l := fresh (dom (heap s)) in
        match convert_time E f with
        | Ret f' =>
            (Ret true, {| self := {| data_path := data_path (self s); df := Some l |};
                          heap := <[l := f']> (heap s) |})
        | Raise _ =>
            (Ret false, {| self := {| data_path := data_path (self s); df := Some l |};
                           heap := <[l := f]> (heap s) |})
        end
    end.
Proof.
  unfold load_data, try_except, convert_time.
  erewrite bind_run by reflexivity.
  rewrite bind_lift. destruct (read_csv E (data_path (self s))) as [f|e]; [|done].
  erewrite bind_run by reflexivity.
  erewrite bind_run by reflexivity.
  erewrite bind_run by (apply self_df_run; reflexivity).
  erewrite bind_getitem by lookup_now.
  destruct (frame_get "upload_time" f) as [c|e]; simpl; [|done].
  rewrite bind_lift. destruct (to_datetime_col (to_datetime E) c) as [t|e]; simpl; [|done].
  erewrite bind_run by (apply self_df_run; reflexivity).
  erewrite bind_setitem by lookup_now.
  destruct (frame_set "upload_time" t f) as [f'|e]; simpl; [|done].
  unfold ret. by rewrite insert_insert_eq.
Qed.

(** After a load that returned [True] the engine holds a table. *)
Lemma load_data_loaded E s s' :
  load_data E s = (Ret true, s') ->
  ∃ l f, df (self s') = Some l ∧ heap s' !! l = Some f.
Proof.
  rewrite load_data_cases.
  destruct (read_csv E (data_path (self s))) as [f|e]; [|intros [=]].
  simpl. destruct (convert_time E f) as [f'|e]; intros [= <-].
  eexists _, _. split; [done|]. simpl. apply lookup_insert_eq.
Qed.

(** A file system without the data file. *)
Definition missing_env : Env :=
  {| read_csv := λ path, Raise (OSError path);
     to_datetime := iso_to_datetime |}.

(** A data file whose second timestamp does not parse. *)
Definition bad_time_csv : DataFrame :=
  {| nrows := 2;
     cols := list_to_map
       [("video_id", ObjCol ["V10000"; "V10001"]);
        ("upload_time", ObjCol ["2024-01-05 08:00:00"; "yesterday"]);
        ("content_type", ObjCol ["tech"; "food"]);
        ("duration_sec", IntCol [120; 90]);
        ("views", IntCol [25000; 10000]);
        ("likes", IntCol [1200; 250]);
        ("comments", IntCol [200; 30]);
        ("shares", IntCol [100; 20]);
        ("completion_rate", FloatCol [dec 55 2; dec 40 2]);
        ("creator_id", ObjCol ["C2001"; "C2002"])];
     index := None |}.

Definition bad_time_env : Env :=
  {| read_csv := λ _, Ret bad_time_csv;
     to_datetime := iso_to_datetime |}.

(** C1, as stated, fails.  A load that fails after a successful one leaves
    the engine loaded, and [calculate_metrics] goes on returning the
    earlier data; a load that fails on a timestamp leaves the table it has
    read, unconverted, in an engine that held nothing before. *)
Lemma C1_counterexample :
  (load_data scenario_env (init "data/sample_data.csv")).1 = Ret true ∧
  (load_data missing_env scenario_state).1 = Ret false ∧
  df (self (load_data missing_env scenario_state).2) = Some 1%positive ∧
  (calculate_metrics (load_data missing_env scenario_state).2).1 = Ret (Some 2%positive) ∧
  df (self (init "data/sample_data.csv")) = None ∧
  (load_data bad_time_env (init "data/sample_data.csv")).1 = Ret false ∧
  df (self (load_data bad_time_env (init "data/sample_data.csv")).2) = Some 1%positive ∧
  heap (load_data bad_time_env (init "data/sample_data.csv")).2 !! 1%positive
    = Some bad_time_csv.
Proof. split_and!; by vm_compute. Qed.

(** C1, amended.  [load_data] never raises: it returns a boolean.  When
    reading the file fails (I/O error, missing file) it returns [False]
    and leaves the engine exactly as it was before the call: unloaded if
    nothing was loaded, and still holding the table of an earlier
    successful load, which [calculate_metrics] goes on serving. *)
Theorem C1_failed_read_keeps_state E s e :
  read_csv E (data_path (self s)) = Raise e ->
  load_data E s = (Ret false, s) ∧
  calculate_metrics (load_data E s).2 = calculate_metrics s ∧
  ∀ E', ∃ b, (load_data E' s).1 = Ret b.
Proof.
  intros Hread. rewrite load_data_cases, Hread. split_and!; [done..|].
  intros E'. rewrite load_data_cases.
  destruct (read_csv E' _); [|by eexists].
  simpl. destruct (convert_time E' _); by eexists.
Qed.

Lemma C1_failed_read_keeps_state_witness :
  load_data missing_env scenario_state = (Ret false, scenario_state).
Proof.
  apply (C1_failed_read_keeps_state missing_env scenario_state
           (OSError "data/sample_data.csv")).
  reflexivity.
Defined.

(** ** C10: queries leave the stored table alone *)

(** The query operations of the engine, with the table each is given. *)
Inductive query : Type :=
| ComputeDerived
| Summarize (d : loc)
| GroupByContentType (d : loc)
| GroupByTimePeriod (d : loc).

(** The state a query leaves, whether it returns or raises. *)
Definition run_query `{Argsort} (q : query) (s : state) : state :=
  match q with
  | ComputeDerived => (calculate_metrics s).2
  | Summarize d => (get_summary_metrics d s).2
  | GroupByContentType d => (get_content_type_analysis d s).2
  | GroupByTimePeriod d => (get_time_period_analysis d s).2
  end.

Definition run_queries `{Argsort} (qs : list query) (s : state) : state :=
  fold_left (λ s q, run_query q s) qs s.

Lemma keeps_run_query `{Argsort} D q s : D ⊆ dom (heap s) -> keeps D s (run_query q s).
Proof.
  intros HD. destruct q; simpl.
  - by apply (safe_calculate_metrics D s).
  - by apply (safe_get_summary_metrics D d s).
  - by apply (safe_get_content_type_analysis D d s).
  - by apply (safe_get_time_period_analysis D d s).
Qed.

Lemma keeps_run_queries `{Argsort} D qs s : D ⊆ dom (heap s) -> keeps D s (run_queries qs s).
Proof.
  revert s. induction qs as [|q qs IH]; intros s HD; simpl.
  - by apply keeps_refl.
  - pose proof (keeps_run_query D q s HD) as Hq.
    eapply keeps_trans; [exact Hq|]. apply IH. apply Hq.
Qed.

Lemma calculate_metrics_copy s l d :
  df (self s) = Some l -> is_Some (heap s !! l) ->
  (calculate_metrics s).1 = Ret (Some d) -> d ≠ l.
Proof.
  intros Hdf [f Hl] Hret.
  assert (safe (dom (heap s)) calculate_metrics
            (λ r, ∀ d, r = Some d -> d ∉ dom (heap s))) as Hsafe.
  { unfold calculate_metrics.
    eapply safe_bind; [apply safe_get_self | intros this _].
    destruct (df this); [|by apply safe_ret].
    repeat safe_step. apply safe_ret. by intros ? [= <-]. }
  destruct (Hsafe s) as [_ HQ]; [done|].
  intros ->. apply (HQ _ Hret l eq_refl). apply elem_of_dom. by exists f.
Qed.

(** C10. After a successful load no query changes the stored table:
    whatever sequence of [calculate_metrics], [get_summary_metrics],
    [get_content_type_analysis] and [get_time_period_analysis] calls runs,
    on whatever tables, returning or raising, the engine still refers to
    the same table with the same contents, as does every other object that
    existed before; [calculate_metrics] works on a copy, a new object. *)
Theorem C10_queries_keep_stored_table `{Argsort} E s0 s qs :
  load_data E s0 = (Ret true, s) ->
  ∃ l f,
    df (self s) = Some l ∧ heap s !! l = Some f ∧
    self (run_queries qs s) = self s ∧
    heap (run_queries qs s) !! l = Some f ∧
    (∀ l', l' ∈ dom (heap s) -> heap (run_queries qs s) !! l' = heap s !! l') ∧
    (∀ d, (calculate_metrics (run_queries qs s)).1 = Ret (Some d) -> d ≠ l).
Proof.
  intros Hload. destruct (load_data_loaded E s0 s Hload) as (l & f & Hdf & Hl).
  exists l, f.
  destruct (keeps_run_queries (dom (heap s)) qs s) as (Hself & Hdom & Hheap); [done|].
  assert (heap (run_queries qs s) !! l = Some f) as Hl'.
  { rewrite Hheap; [done|]. apply elem_of_dom. by exists f. }
  split_and!; try done.
  intros d. apply calculate_metrics_copy; [by rewrite Hself|by exists f].
Qed.

Lemma C10_queries_keep_stored_table_witness :
  heap (run_queries (H := stable_sort)
          [ComputeDerived; Summarize 2%positive; GroupByContentType 2%positive;
           GroupByTimePeriod 2%positive; Summarize 1%positive; ComputeDerived]
          scenario_state) !! 1%positive
  = heap scenario_state !! 1%positive.
Proof.
  destruct (C10_queries_keep_stored_table (H := stable_sort) scenario_env
              (init "data/sample_data.csv") scenario_state
              [ComputeDerived; Summarize 2%positive; GroupByContentType 2%positive;
               GroupByTimePeriod 2%positive; Summarize 1%positive; ComputeDerived])
    as (l & f & Hdf & Hl & _ & _ & Hall & _).
  - by vm_compute.
  - apply Hall. by vm_compute.
Defined.

(** ** C2 and C4: the summary, and division by zero *)

(** The columns [get_summary_metrics] reads. *)
Record summary_schema (g : DataFrame)
    (views : list Z) (er : list float) (hot : list bool) : Prop :=
  { sum_views : cols g !! "views" = Some (IntCol views);
    sum_er : cols g !! "engagement_rate" = Some (FloatCol er);
    sum_hot : cols g !! "is_hot" = Some (BoolCol hot) }.

Definition hot_rate (hot_count : Z) (total : nat) : float :=
  np_round 2 (fmul (fdiv (of_int hot_count) (of_int (Z.of_nat total))) (of_int 100)).

Definition summary_of (total : nat) (views : list Z) (er : list float) (hot : list bool)
  : gmap string scalar :=
  <["total_videos" := SInt (Z.of_nat total)]>
  (<["total_views" := SInt (Int64.sum views)]>
  (<["avg_engagement_rate" := SFloat (fmean er)]>
  (<["hot_videos_count" := SInt (count_true hot)]>
  (<["hot_videos_rate" := SFloat (hot_rate (count_true hot) total)]> ∅)))).

Lemma get_summary_metrics_run s d g views er hot :
  heap s !! d = Some g ->
  summary_schema g views er hot ->
  get_summary_metrics d s = (Ret (summary_of (nrows g) views er hot), s).
Proof.
  intros Hd [H1 H2 H3]. unfold get_summary_metrics.
  repeat step. reflexivity.
Qed.

(** Without overflow the int64 sum is the sum. *)
Definition sumZ (xs : list Z) : Z := foldr Z.add 0 xs.



(** An engine holding the table [f] as its loaded table. *)
Definition engine_with (f : DataFrame) : state :=
  {| self := {| data_path := "data/sample_data.csv"; df := Some 1%positive |};
     heap := {[ 1%positive := f ]} |}.

(** The same after one call of [calculate_metrics]; the derived table is
    the object at reference 2. *)
Definition derived_engine (f : DataFrame) : state :=
  (calculate_metrics (engine_with f)).2.

Definition noon : datetime :=
  {| year := 2024; month := 1; day := 2; hour := 12; minute := 0; second := 0 |}.


(** The column [key] of the table at [l]. *)
Definition column_at (s : state) (l : loc) (key : string) : option column :=
  match heap s !! l with
  | Some f => cols f !! key
  | None => None
  end.

(** What [get_summary_metrics] returns under a key. *)
Definition summary_field (key : string) (r : outcome (gmap string scalar) * state)
  : option scalar :=
  match r.1 with
  | Ret m => m !! key
  | Raise _ => None
  end.




Lemma engagement_col_lookup likes comments shares views i a b c v :
  likes !! i = Some a -> comments !! i = Some b -> shares !! i = Some c ->
  views !! i = Some v ->
  engagement_col likes comments shares views !! i =
    Some (np_round 2 (fmul (fdiv (of_int (Int64.add (Int64.add a b) c)) (of_int v))
                           (of_int 100))).
Proof.
  intros Ha Hb Hc Hv. unfold engagement_col.
  rewrite !list_lookup_fmap, lookup_zip_with, !list_lookup_fmap, !lookup_zip_with.
  by rewrite Ha, Hb, Hc, Hv.
Qed.

(** A quotient by zero, scaled and rounded as the engagement rate is, is an
    infinity or NaN. *)
Lemma rate_over_zero_not_finite x :
  is_finite (np_round 2 (fmul (fdiv x (of_int 0)) (of_int 100))) = false.
Proof. by destruct x as [[]|[]| |[] m e]; vm_compute. Qed.

Lemma rate_zero_over_zero_nan :
  np_round 2 (fmul (fdiv (of_int 0) (of_int 0)) (of_int 100)) = nan.
Proof. by vm_compute. Qed.

(** Records without views: 5 interactions on 0 views, 0 on 0, and an
    ordinary record. *)
Definition zero_views_table : DataFrame :=
  {| nrows := 3;
     cols := list_to_map
       [("video_id", ObjCol ["V1"; "V2"; "V3"]);
        ("upload_time", TimeCol [noon; noon; noon]);
        ("content_type", ObjCol ["a"; "a"; "b"]);
        ("views", IntCol [0; 0; 1000]);
        ("likes", IntCol [5; 0; 10]);
        ("comments", IntCol [0; 0; 0]);
        ("shares", IntCol [0; 0; 0]);
        ("completion_rate", FloatCol [dec 5 1; dec 5 1; dec 5 1])];
     index := None |}.

(** A table with its header and no record. *)
Definition empty_table : DataFrame :=
  {| nrows := 0;
     cols := list_to_map
       [("video_id", ObjCol []);
        ("upload_time", TimeCol []);
        ("content_type", ObjCol []);
        ("views", IntCol []);
        ("likes", IntCol []);
        ("comments", IntCol []);
        ("shares", IntCol []);
        ("completion_rate", FloatCol [])];
     index := None |}.

(** C4, as stated, fails: no division is guarded.  Records with 0 views
    are kept, with an engagement rate of +infinity (5 interactions) or NaN
    (none), the values of the float division by zero; on a table without
    records the summary's mean and hot rate are NaN, from 0/0. *)
Lemma C4_counterexample :
  column_at (derived_engine zero_views_table) 2%positive "engagement_rate"
    = Some (FloatCol [pinf; nan; of_int 1]) ∧
  nrows <$> heap (derived_engine zero_views_table) !! 2%positive = Some 3%nat ∧
  summary_field "total_videos"
    (get_summary_metrics 2%positive (derived_engine empty_table)) = Some (SInt 0) ∧
  summary_field "hot_videos_rate"
    (get_summary_metrics 2%positive (derived_engine empty_table)) = Some (SFloat nan) ∧
  summary_field "avg_engagement_rate"
    (get_summary_metrics 2%positive (derived_engine empty_table)) = Some (SFloat nan).
Proof. split_and!; by vm_compute. Qed.

(** C4, amended.  No division of the engine is guarded against zero, and
    none raises.  [calculate_metrics] keeps every record; for a record
    with 0 views the engagement rate is what the float division by zero
    gives, an infinity or NaN (NaN when likes + comments + shares is 0
    too), and the record is not hot.  On a table without records
    [get_summary_metrics] returns a count of 0 and NaN as hot rate. *)
Theorem C4_division_by_zero_unguarded :
  (∀ s l f likes comments shares views times,
     df (self s) = Some l -> heap s !! l = Some f ->
     loaded_schema f likes comments shares views times ->
     ∃ d s' g er hot,
       calculate_metrics s = (Ret (Some d), s') ∧
       heap s' !! d = Some g ∧ nrows g = nrows f ∧
       cols g !! "engagement_rate" = Some (FloatCol er) ∧
       cols g !! "is_hot" = Some (BoolCol hot) ∧
       length er = nrows f ∧
       ∀ i, views !! i = Some 0 ->
            ∃ a b c e,
              likes !! i = Some a ∧ comments !! i = Some b ∧ shares !! i = Some c ∧
              er !! i = Some e ∧ is_finite e = false ∧
              (Int64.add (Int64.add a b) c = 0 -> e = nan) ∧
              hot !! i = Some false) ∧
  (∀ s d g views er hot,
     heap s !! d = Some g -> summary_schema g views er hot ->
     nrows g = 0%nat -> length hot = 0%nat ->
     ∃ m, get_summary_metrics d s = (Ret m, s) ∧
          m !! "total_videos" = Some (SInt 0) ∧
          m !! "hot_videos_rate" = Some (SFloat nan)).
Proof.
  split.
  - intros s l f likes comments shares views times Hdf Hl Hsch.
    eexists _, _, _, (engagement_col likes comments shares views), _.
    split; [by eapply calculate_metrics_run|].
    destruct Hsch as [H1 H2 H3 H4 H5 L1 L2 L3 L4 L5].
    split; [simpl; apply lookup_insert_eq|].
    split; [done|]. split; [lookup_now|]. split; [lookup_now|].
    split; [by apply engagement_col_length|].
    intros i Hv.
    pose proof (lookup_lt_Some _ _ _ Hv) as Hi.
    destruct (lookup_lt_is_Some_2 likes i) as [a Ha]; [lia|].
    destruct (lookup_lt_is_Some_2 comments i) as [b Hb]; [lia|].
    destruct (lookup_lt_is_Some_2 shares i) as [c Hc]; [lia|].
    pose proof (engagement_col_lookup _ _ _ _ _ _ _ _ _ Ha Hb Hc Hv) as He.
    exists a, b, c. eexists. split_and!; try done.
    + apply rate_over_zero_not_finite.
    + intros ->. apply rate_zero_over_zero_nan.
    + rewrite (is_hot_col_lookup _ _ _ _ _ He Hv). by rewrite andb_false_r.
  - intros s d g views er hot Hd Hsch Hn Hhot.
    exists (summary_of (nrows g) views er hot).
    split; [by apply get_summary_metrics_run|].
    apply nil_length_inv in Hhot as ->. rewrite Hn. unfold summary_of.
    split; [lookup_now|]. by vm_compute.
Qed.

Lemma C4_division_by_zero_unguarded_witness :
  summary_field "hot_videos_rate"
    (get_summary_metrics 2%positive (derived_engine empty_table)) = Some (SFloat nan) ∧
  ∃ e, column_at (derived_engine zero_views_table) 2%positive "engagement_rate"
         = Some (FloatCol e) ∧ length e = 3%nat.
Proof.
  destruct C4_division_by_zero_unguarded as [Hcalc Hsum]. split.
  - destruct (Hsum (derived_engine empty_table) 2%positive
                (derived empty_table [] [] [] [] []) [] [] [])
      as (m & Hrun & _ & Hrate).
    + by vm_compute.
    + by split.
    + reflexivity.
    + reflexivity.
    + unfold summary_field. by rewrite Hrun.
  - destruct (Hcalc (engine_with zero_views_table) 1%positive zero_views_table
                [5; 0; 10] [0; 0; 0] [0; 0; 0] [0; 0; 1000] [noon; noon; noon])
      as (d & s' & g & er & hot & Hrun & Hg & _ & Her & _ & Hlen & _).
    + reflexivity.
    + reflexivity.
    + by split.
    + exists er. split; [|exact Hlen].
      unfold column_at, derived_engine. rewrite Hrun. simpl.
      assert (d = 2%positive) as <-.
      { assert (Hd : (calculate_metrics (engine_with zero_views_table)).1
                     = Ret (Some 2%positive)) by (by vm_compute).
        rewrite Hrun in Hd. by injection Hd. }
      by rewrite Hg.
Defined.

(** ** Group keys *)

Definition slt (a b : string) : Prop := String.compare a b = Lt.

Lemma ascii_compare_refl a : Ascii.compare a a = Eq.
Proof. unfold Ascii.compare. apply N.compare_refl. Qed.

Lemma ascii_compare_lt_trans a b c :
  Ascii.compare a b = Lt -> Ascii.compare b c = Lt -> Ascii.compare a c = Lt.
Proof.
  unfold Ascii.compare. rewrite !N.compare_lt_iff. intros. by etrans.
Qed.

Lemma slt_trans a b c : slt a b -> slt b c -> slt a c.
Proof.
  unfold slt. revert b c.
  induction a as [|x a IH]; intros [|y b] [|z c]; simpl; try done.
  destruct (Ascii.compare x y) eqn:Hxy; try done;
    destruct (Ascii.compare y z) eqn:Hyz; try done.
  - apply Ascii.compare_eq_iff in Hxy as ->. apply Ascii.compare_eq_iff in Hyz as ->.
    rewrite ascii_compare_refl. apply IH.
  - apply Ascii.compare_eq_iff in Hxy as ->. by rewrite Hyz.
  - apply Ascii.compare_eq_iff in Hyz as ->. by rewrite Hxy.
  - by rewrite (ascii_compare_lt_trans _ _ _ Hxy Hyz).
Qed.

Lemma slt_irrefl a : ¬ slt a a.
Proof.
  unfold slt. induction a as [|x a IH]; simpl; [done|].
  by rewrite ascii_compare_refl.
Qed.

Lemma compare_gt_slt a b : String.compare a b = Gt -> slt b a.
Proof. unfold slt. intros H. rewrite String.compare_antisym, H. done. Qed.

Lemma elem_of_insert_key x k ks : x ∈ insert_key k ks ↔ x = k ∨ x ∈ ks.
Proof.
  induction ks as [|k' ks IH]; simpl.
  - rewrite elem_of_cons, elem_of_nil. tauto.
  - destruct (String.compare k k') eqn:Hc.
    + apply String.compare_eq_iff in Hc as ->. rewrite elem_of_cons. tauto.
    + apply elem_of_cons.
    + rewrite elem_of_cons, IH, !elem_of_cons. tauto.
Qed.

Lemma insert_key_sorted k ks :
  StronglySorted slt ks -> StronglySorted slt (insert_key k ks).
Proof.
  induction ks as [|k' ks IH]; intros Hs; simpl.
  - repeat constructor.
  - apply StronglySorted_cons in Hs as [Hk' Hs].
    destruct (String.compare k k') eqn:Hc.
    + by apply StronglySorted_cons.
    + apply StronglySorted_cons. split; [|by apply StronglySorted_cons].
      apply Forall_cons. split; [done|].
      eapply Forall_impl; [exact Hk'|]. intros y Hy. by apply (slt_trans _ k').
    + apply StronglySorted_cons. split; [|by apply IH].
      apply Forall_forall. intros y Hy. apply elem_of_insert_key in Hy as [->|Hy].
      * by apply compare_gt_slt.
      * rewrite Forall_forall in Hk'. by apply Hk'.
Qed.

Lemma group_keys_sorted ks : StronglySorted slt (group_keys ks).
Proof.
  unfold group_keys. induction ks as [|k ks IH]; simpl; [constructor|].
  by apply insert_key_sorted.
Qed.

Lemma elem_of_group_keys k ks : k ∈ group_keys ks ↔ k ∈ ks.
Proof.
  unfold group_keys. induction ks as [|k' ks IH]; simpl; [done|].
  rewrite elem_of_insert_key, IH, elem_of_cons. tauto.
Qed.

Lemma StronglySorted_slt_NoDup ks : StronglySorted slt ks -> NoDup ks.
Proof.
  induction 1 as [|k ks Hs IH Hk]; constructor; [|done].
  intros Hin. rewrite Forall_forall in Hk. by apply (slt_irrefl k), Hk.
Qed.

Lemma group_keys_NoDup ks : NoDup (group_keys ks).
Proof. apply StronglySorted_slt_NoDup, group_keys_sorted. Qed.

(** ** Row selection by position *)

Lemma take_list_nil {A} (L : list A) : take_list [] L = [].
Proof. done. Qed.

Lemma take_list_cons {A} i idx (L : list A) v :
  L !! i = Some v -> take_list (i :: idx) L = v :: take_list idx L.
Proof. intros H. unfold take_list. simpl. by rewrite H. Qed.

Lemma take_list_cons_None {A} i idx (L : list A) :
  L !! i = None -> take_list (i :: idx) L = take_list idx L.
Proof. intros H. unfold take_list. simpl. by rewrite H. Qed.


Lemma take_list_fmap {A B} (f : A -> B) idx (L : list A) :
  take_list idx (f <$> L) = f <$> take_list idx L.
Proof.
  induction idx as [|i idx IH]; [done|].
  destruct (L !! i) as [v|] eqn:Hi.
  - rewrite (take_list_cons i idx (f <$> L) (f v)), (take_list_cons i idx L v), IH; [done..|].
    by rewrite list_lookup_fmap, Hi.
  - rewrite !take_list_cons_None, IH; [done..|]. by rewrite list_lookup_fmap, Hi.
Qed.


Lemma length_take_list {A} idx (L : list A) :
  Forall (λ i, (i < length L)%nat) idx -> length (take_list idx L) = length idx.
Proof.
  induction 1 as [|i idx Hi Hv IH]; [done|].
  destruct (lookup_lt_is_Some_2 L i Hi) as [v Hv'].
  rewrite (take_list_cons _ _ _ _ Hv'). simpl. by rewrite IH.
Qed.


Lemma take_list_seq_from {A} (pre L : list A) :
  take_list (seq (length pre) (length L)) (pre ++ L) = L.
Proof.
  revert pre. induction L as [|x L IH]; intros pre; simpl; [done|].
  rewrite (take_list_cons _ _ _ x) by (by apply list_lookup_middle).
  f_equal. specialize (IH (pre ++ [x])).
  rewrite length_app, <- app_assoc in IH. simpl in IH.
  by rewrite Nat.add_1_r in IH.
Qed.

Lemma take_list_seq {A} (L : list A) : take_list (seq 0 (length L)) L = L.
Proof. apply (take_list_seq_from [] L). Qed.

Lemma take_list_perm {A} idx (L : list A) :
  idx ≡ₚ seq 0 (length L) -> take_list idx L ≡ₚ L.
Proof.
  intros Hp. unfold take_list. rewrite Hp. fold (take_list (seq 0 (length L)) L).
  by rewrite take_list_seq.
Qed.

Lemma perm_seq_valid idx n :
  idx ≡ₚ seq 0 n -> Forall (λ i, (i < n)%nat) idx.
Proof.
  intros Hp. apply Forall_forall. intros i Hi. rewrite Hp in Hi.
  apply elem_of_seq in Hi. lia.
Qed.

(** ** [nargsort] *)

Lemma filter_seq_valid (Q : nat -> Prop) `{∀ i, Decision (Q i)} n :
  Forall (λ i, (i < n)%nat) (filter Q (seq 0 n)).
Proof.
  apply Forall_forall. intros i Hi. apply list_elem_of_filter in Hi as [_ Hi].
  apply elem_of_seq in Hi. lia.
Qed.



Lemma nan_split_perm xs :
  filter (λ i, is_nan (fnth xs i) = false) (seq 0 (length xs))
    ++ filter (λ i, is_nan (fnth xs i) = true) (seq 0 (length xs))
  ≡ₚ seq 0 (length xs).
Proof.
  rewrite <- (filter_app_complement (λ i, is_nan (fnth xs i) = false)
                (seq 0 (length xs))) at 3.
  f_equiv. apply reflexive_eq. apply list_filter_iff. intros i.
  destruct (is_nan (fnth xs i)); naive_solver.
Qed.

Section Nargsort.

Context `{Argsort}.

Lemma nargsort_perm xs ascending : nargsort xs ascending ≡ₚ seq 0 (length xs).
Proof.
  unfold nargsort.
  set (nni := filter (λ i, is_nan (fnth xs i) = false) (seq 0 (length xs))).
  set (ni := filter (λ i, is_nan (fnth xs i) = true) (seq 0 (length xs))).
  assert (length (take_list nni xs) = length nni) as Hlen.
  { apply length_take_list, filter_seq_valid. }
  rewrite <- (nan_split_perm xs). fold nni ni. f_equiv.
  destruct ascending.
  - apply take_list_perm. rewrite argsort_perm. by rewrite Hlen.
  - rewrite reverse_Permutation.
    rewrite take_list_perm; [apply reverse_Permutation|].
    rewrite argsort_perm. by rewrite !length_reverse, Hlen.
Qed.


End Nargsort.



(** ** The two breakdowns, on frames alone *)

(** [get_content_type_analysis] without the store. *)
Definition content_stats `{Argsort} (g : DataFrame) : outcome DataFrame :=
  obind (groupby_agg "content_type"
           [("views", AggMean); ("engagement_rate", AggMean);
            ("video_id", AggCount); ("is_hot", AggSum)] g) (λ a,
  obind (reset_index (frame_round 2 a)) (λ r,
  let cs := rename [("video_id", "video_count"); ("is_hot", "hot_videos")] r in
  obind (frame_get "hot_videos" cs) (λ hv,
  obind (frame_get "video_count" cs) (λ vc,
  obind (col_truediv hv vc) (λ q,
  obind (col_mul_scalar q (SInt 100)) (λ p,
  obind (col_round 2 p) (λ hr,
  obind (frame_set "hot_rate" hr cs) (λ cs',
  sort_values "engagement_rate" false cs')))))))).

(** [get_time_period_analysis] without the store. *)
Definition time_stats `{Argsort} (g : DataFrame) : outcome DataFrame :=
  obind (groupby_agg "time_period"
           [("views", AggMean); ("engagement_rate", AggMean);
            ("video_id", AggCount)] g) (λ a,
  obind (reset_index (frame_round 2 a)) (λ r,
  sort_values "engagement_rate" false (rename [("video_id", "video_count")] r))).

(** The table behind the reference a call returns, or its exception. *)
Definition returned_frame (r : outcome loc * state) : outcome (option DataFrame) :=
  match r.1 with
  | Ret l => Ret (heap r.2 !! l)
  | Raise e => Raise e
  end.

Ltac sim_step' :=
  first
    [ sim_step
    | lazymatch goal with
      | |- context [bind (deref _) _ _] =>
          erewrite (bind_run (deref _)) by (eapply deref_run; lookup_now)
      | |- context [bind (new _) _ _] =>
          erewrite (bind_run (new _)) by (unfold new; reflexivity)
      end; simpl ].

Lemma get_content_type_analysis_pure `{Argsort} s d g :
  heap s !! d = Some g ->
  returned_frame (get_content_type_analysis d s) =
    match content_stats g with
    | Ret out => Ret (Some out)
    | Raise e => Raise e
    end.
Proof.
  intros Hd. unfold get_content_type_analysis, content_stats.
  repeat sim_step'.
  unfold new, returned_frame. simpl. by rewrite lookup_insert_eq.
Qed.

Lemma get_time_period_analysis_pure `{Argsort} s d g :
  heap s !! d = Some g ->
  returned_frame (get_time_period_analysis d s) =
    match time_stats g with
    | Ret out => Ret (Some out)
    | Raise e => Raise e
    end.
Proof.
  intros Hd. unfold get_time_period_analysis, time_stats.
  repeat sim_step'.
  unfold new, returned_frame. simpl. by rewrite lookup_insert_eq.
Qed.

(** ** C3 and C5: the breakdowns *)

(** The columns [get_time_period_analysis] reads. *)
Record time_schema (g : DataFrame)
    (periods : list string) (views : list Z) (er : list float) (ids : list string) : Prop :=
  { ts_periods : cols g !! "time_period" = Some (ObjCol periods);
    ts_views : cols g !! "views" = Some (IntCol views);
    ts_er : cols g !! "engagement_rate" = Some (FloatCol er);
    ts_ids : cols g !! "video_id" = Some (ObjCol ids) }.

(** The aggregates of the group with key [k]. *)
Definition mean_views (ks : list string) (views : list Z) (k : string) : float :=
  np_round 2 (fmean (of_int <$> group_select ks k views)).

Definition mean_engagement (ks : list string) (er : list float) (k : string) : float :=
  np_round 2 (fmean (group_select ks k er)).

Definition group_count {A} (ks : list string) (xs : list A) (k : string) : Z :=
  Z.of_nat (length (group_select ks k xs)).

(** Lookups and deletions in a map given by its insertions. *)
Ltac map_norm :=
  repeat first
    [ rewrite lookup_insert_eq
    | rewrite lookup_insert_ne by done
    | rewrite lookup_empty
    | rewrite delete_insert_eq
    | rewrite delete_insert_ne by done
    | rewrite delete_empty
    | rewrite fmap_insert
    | rewrite fmap_empty ].

(** The rows of the time-period breakdown before sorting, and the order
    [sort_values] puts them in. *)
Definition time_groups (ks : list string) (vs : list Z) (er : list float) (ids : list string)
  : DataFrame :=
  {| nrows := length (group_keys ks);
     cols := <["video_count" := IntCol (group_count ks ids <$> group_keys ks)]>
            (<["time_period" := ObjCol (group_keys ks)]>
            (<["views" := FloatCol (mean_views ks vs <$> group_keys ks)]>
            (<["engagement_rate" := FloatCol (mean_engagement ks er <$> group_keys ks)]> ∅)));
     index := None |}.

Lemma time_stats_run `{Argsort} g ks vs er ids :
  time_schema g ks vs er ids ->
  time_stats g =
    Ret (frame_take (nargsort (mean_engagement ks er <$> group_keys ks) false)
           (time_groups ks vs er ids)).
Proof.
  intros [H1 H2 H3 H4]. unfold time_stats, groupby_agg, frame_get.
  rewrite H1. simpl. unfold frame_get. rewrite H2, H3, H4. simpl.
  unfold reset_index, frame_round. simpl. map_norm. simpl.
  unfold rename_col. simpl. map_norm. simpl.
  unfold sort_values, frame_get. simpl. map_norm. simpl.
  rewrite <- !list_fmap_compose. reflexivity.
Qed.

(** The columns [get_content_type_analysis] reads. *)
Record content_schema (g : DataFrame)
    (types : list string) (views : list Z) (er : list float) (ids : list string)
    (hot : list bool) : Prop :=
  { cs_types : cols g !! "content_type" = Some (ObjCol types);
    cs_views : cols g !! "views" = Some (IntCol views);
    cs_er : cols g !! "engagement_rate" = Some (FloatCol er);
    cs_ids : cols g !! "video_id" = Some (ObjCol ids);
    cs_hot : cols g !! "is_hot" = Some (BoolCol hot) }.

Definition group_hot (ks : list string) (hot : list bool) (k : string) : Z :=
  count_true (group_select ks k hot).

Definition group_hot_rate {A} (ks : list string) (ids : list A) (hot : list bool) (k : string)
  : float :=
  np_round 2 (fmul (fdiv (of_int (group_hot ks hot k)) (of_int (group_count ks ids k)))
                   (of_int 100)).

Definition content_groups (ks : list string) (vs : list Z) (er : list float)
    (ids : list string) (hot : list bool) : DataFrame :=
  {| nrows := length (group_keys ks);
     cols := <["hot_rate" := FloatCol (group_hot_rate ks ids hot <$> group_keys ks)]>
            (<["hot_videos" := IntCol (group_hot ks hot <$> group_keys ks)]>
            (<["video_count" := IntCol (group_count ks ids <$> group_keys ks)]>
            (<["content_type" := ObjCol (group_keys ks)]>
            (<["views" := FloatCol (mean_views ks vs <$> group_keys ks)]>
            (<["engagement_rate" := FloatCol (mean_engagement ks er <$> group_keys ks)]> ∅)))));
     index := None |}.

Lemma zip_with_fmap_same {A B C D} (f : B -> C -> D) (g1 : A -> B) (g2 : A -> C) (l : list A) :
  zip_with f (g1 <$> l) (g2 <$> l) = (λ x, f (g1 x) (g2 x)) <$> l.
Proof. by rewrite zip_with_fmap_l, zip_with_fmap_r, zip_with_diag. Qed.

Lemma content_stats_run `{Argsort} g ks vs er ids hot :
  content_schema g ks vs er ids hot ->
  content_stats g =
    Ret (frame_take (nargsort (mean_engagement ks er <$> group_keys ks) false)
           (content_groups ks vs er ids hot)).
Proof.
  intros [H1 H2 H3 H4 H5]. unfold content_stats, groupby_agg, frame_get.
  rewrite H1. simpl. unfold frame_get. rewrite H2, H3, H4, H5. simpl.
  unfold reset_index, frame_round. simpl. map_norm. simpl.
  unfold rename_col. simpl. map_norm. simpl. map_norm. simpl.
  unfold frame_get. simpl. map_norm. simpl.
  unfold frame_set. simpl.
  rewrite !length_fmap, length_zip_with, !length_fmap, Nat.min_id, Nat.eqb_refl. simpl.
  unfold sort_values, frame_get. simpl. map_norm. simpl.
  rewrite <- !list_fmap_compose, zip_with_fmap_same, <- !list_fmap_compose.
  reflexivity.
Qed.


(** The table at [l]. *)
Definition table_at (s : state) (l : loc) : DataFrame :=
  default {| nrows := 0; cols := ∅; index := None |} (heap s !! l).

(** The scenario table with its derived columns, at reference 2. *)
Definition scenario_derived : state := (calculate_metrics scenario_state).2.








(** ** C8: the ranking *)









(** [display_video_ranking] up to [top_videos], without the store. *)
Definition ranking (g : DataFrame) : outcome DataFrame :=
  obind (frame_get "engagement_rate" g) (λ er,
  obind (col_mul_scalar er (SFloat (dec 4 1))) (λ a,
  obind (frame_get "views" g) (λ v,
  obind (col_div_scalar v (SInt 1000)) (λ v1,
  obind (col_mul_scalar v1 (SFloat (dec 3 1))) (λ b,
  obind (col_add a b) (λ ab,
  obind (frame_get "completion_rate" g) (λ cr,
  obind (col_mul_scalar cr (SInt 100)) (λ c1,
  obind (col_mul_scalar c1 (SFloat (dec 3 1))) (λ c2,
  obind (col_add ab c2) (λ score,
  obind (frame_set "composite_score" score g) (λ g',
  obind (nlargest 10 "composite_score" g') (λ top,
  frame_select ["video_id"; "content_type"; "views"; "engagement_rate";
                "completion_rate"; "composite_score"; "upload_time"] top)))))))))))).

Ltac sim_step'' :=
  first
    [ sim_step'
    | lazymatch goal with
      | |- context [bind (copy _) _ _] =>
          erewrite (bind_run (copy _)) by (eapply copy_run; lookup_now)
      end; simpl ].

Lemma display_video_ranking_pure s d g :
  heap s !! d = Some g ->
  returned_frame (display_video_ranking d s) =
    match ranking g with
    | Ret out => Ret (Some out)
    | Raise e => Raise e
    end.
Proof.
  intros Hd. unfold display_video_ranking, ranking.
  repeat sim_step''.
  unfold new, returned_frame. simpl. by rewrite lookup_insert_eq.
Qed.


Definition score_col (er : list float) (vs : list Z) (cr : list float) : list float :=
  zip_with fadd
    (zip_with fadd ((λ x, fmul x (dec 4 1)) <$> er)
                   ((λ x, fmul x (dec 3 1)) <$> ((λ x, fdiv x (of_int 1000)) <$> (of_int <$> vs))))
    ((λ x, fmul x (dec 3 1)) <$> ((λ x, fmul x (of_int 100)) <$> cr)).




Definition top_videos (g : DataFrame) (er : list float) (vs : list Z) (cr : list float)
    (ids types times : column) : DataFrame :=
  let idx := nlargest_indexer 10 (score_col er vs cr) in
  {| nrows := length idx;
     cols := <["video_id" := col_take idx ids]>
            (<["content_type" := col_take idx types]>
            (<["views" := IntCol (take_list idx vs)]>
            (<["engagement_rate" := FloatCol (take_list idx er)]>
            (<["completion_rate" := FloatCol (take_list idx cr)]>
            (<["composite_score" := FloatCol (take_list idx (score_col er vs cr))]>
            (<["upload_time" := col_take idx times]> ∅))))));
     index := (λ p, (p.1, col_take idx p.2)) <$> index g |}.







(** * Further properties of the engine *)

(** ** [load_data]: success, partial state, reload *)

(** Every column of a table is as long as the table. *)
Definition frame_wf (f : DataFrame) : Prop :=
  map_Forall (λ _ c, col_len c = nrows f) (cols f).

(** X1. When the file is read and its [upload_time] column holds strings,
    [load_data] returns [True] exactly when every timestamp parses; the
    engine then refers to a new object, the table as read with
    [upload_time] converted and nothing else changed. *)
Theorem load_data_succeeds_iff E s f ss :
  read_csv E (data_path (self s)) = Ret f ->
  frame_wf f ->
  cols f !! "upload_time" = Some (ObjCol ss) ->
  ((load_data E s).1 = Ret true ↔ Forall (λ x, is_Some (to_datetime E x)) ss) ∧
  (∀ ts, mapM (to_datetime E) ss = Some ts ->
     load_data E s =
       (Ret true,
        {| self := {| data_path := data_path (self s); df := Some (fresh (dom (heap s))) |};
           heap := <[fresh (dom (heap s)) :=
                       {| nrows := nrows f;
                          cols := <["upload_time" := TimeCol ts]> (cols f);
                          index := index f |}]> (heap s) |})).
Proof.
  intros Hread Hwf Hut.
  assert (length ss = nrows f) as Hlen.
  { apply (map_Forall_lookup_1 _ _ _ _ Hwf Hut). }
  rewrite load_data_cases, Hread. simpl.
  unfold convert_time, frame_get. rewrite Hut. simpl.
  destruct (mapM (to_datetime E) ss) as [ts|] eqn:Hm; simpl.
  - assert (length ts = nrows f) as Hlen'.
    { rewrite <- Hlen. symmetry. by eapply length_mapM. }
    unfold frame_set. simpl. rewrite Hlen', Nat.eqb_refl. simpl.
    split.
    + split; [intros _|done]. apply mapM_is_Some. by rewrite Hm.
    + by intros ? [= <-].
  - split; [|done].
    split; [done|]. intros Hall. apply mapM_is_Some in Hall. rewrite Hm in Hall.
    by destruct Hall.
Qed.

Lemma load_data_succeeds_iff_witness :
  (load_data scenario_env (init "data/sample_data.csv")).1 = Ret true.
Proof.
  apply (load_data_succeeds_iff scenario_env (init "data/sample_data.csv") scenario_csv
           ["2024-01-05 08:00:00"; "2024-01-06 13:00:00"; "2024-01-07 23:00:00"]).
  - reflexivity.
  - apply (bool_decide_unpack _). by vm_compute.
  - reflexivity.
  - apply (bool_decide_unpack _). by vm_compute.
Defined.

(** The numeric columns [calculate_metrics] divides. *)
Record numeric_schema (f : DataFrame) (likes comments shares views : list Z) : Prop :=
  { num_likes : cols f !! "likes" = Some (IntCol likes);
    num_comments : cols f !! "comments" = Some (IntCol comments);
    num_shares : cols f !! "shares" = Some (IntCol shares);
    num_views : cols f !! "views" = Some (IntCol views);
    num_len_likes : length likes = nrows f;
    num_len_comments : length comments = nrows f;
    num_len_shares : length shares = nrows f;
    num_len_views : length views = nrows f }.

(** X2. A load that fails after the file was read (no [upload_time]
    column, or a timestamp that does not parse) returns [False] but leaves
    the engine referring to the table it has read, unconverted.  The
    engine is then not unloaded: [calculate_metrics] does not return
    [None], it raises, [KeyError] when the column is missing and
    [AttributeError] when it holds the unparsed strings. *)
Theorem failed_conversion_keeps_raw_table E s f e likes comments shares views :
  read_csv E (data_path (self s)) = Ret f ->
  convert_time E f = Raise e ->
  numeric_schema f likes comments shares views ->
  ∃ s',
    load_data E s = (Ret false, s') ∧
    df (self s') = Some (fresh (dom (heap s))) ∧
    heap s' !! fresh (dom (heap s)) = Some f ∧
    (cols f !! "upload_time" = None ->
       (calculate_metrics s').1 = Raise (KeyError "upload_time")) ∧
    (∀ ss, cols f !! "upload_time" = Some (ObjCol ss) ->
       (calculate_metrics s').1 = Raise AttributeError).
Proof.
  intros Hread Hconv [H1 H2 H3 H4 L1 L2 L3 L4].
  eexists. split; [by rewrite load_data_cases, Hread; simpl; rewrite Hconv|].
  split; [done|]. split; [simpl; apply lookup_insert_eq|].
  split.
  - intros Hut.
    match goal with
    | |- (calculate_metrics ?t).1 = Raise ?x =>
        enough (∃ s2, calculate_metrics t = (Raise x, s2)) as [s2 ->] by done
    end.
    eexists. unfold calculate_metrics.
    erewrite bind_run by reflexivity. simpl.
    repeat step.
    erewrite bind_getitem by lookup_now.
    unfold frame_get. simpl. map_norm. by rewrite Hut.
  - intros ss Hut.
    match goal with
    | |- (calculate_metrics ?t).1 = Raise ?x =>
        enough (∃ s2, calculate_metrics t = (Raise x, s2)) as [s2 ->] by done
    end.
    eexists. unfold calculate_metrics.
    erewrite bind_run by reflexivity. simpl.
    repeat step.
    by rewrite bind_lift.
Qed.

Lemma failed_conversion_keeps_raw_table_witness :
  (calculate_metrics (load_data bad_time_env (init "data/sample_data.csv")).2).1
  = Raise AttributeError.
Proof.
  destruct (failed_conversion_keeps_raw_table bad_time_env (init "data/sample_data.csv")
              bad_time_csv ValueError [1200; 250] [200; 30] [100; 20] [25000; 10000])
    as (s' & Hload & _ & _ & _ & Hattr).
  - reflexivity.
  - by vm_compute.
  - by split.
  - rewrite Hload. simpl. by apply (Hattr ["2024-01-05 08:00:00"; "yesterday"]).
Defined.

(** X3. [load_data] never changes an object that exists: tables handed
    out earlier stay as they were, whether the load succeeds or fails.
    Afterwards the engine refers either to what it referred to before or
    to a new object, and its path is unchanged. *)
Theorem load_data_keeps_objects E s :
  (∀ l, l ∈ dom (heap s) -> heap (snd (load_data E s)) !! l = heap s !! l) ∧
  data_path (self (snd (load_data E s))) = data_path (self s) ∧
  (df (self (snd (load_data E s))) = df (self s) ∨
   ∃ l, df (self (snd (load_data E s))) = Some l ∧ (l ∉ dom (heap s)) ∧
        is_Some (heap (snd (load_data E s)) !! l)).
Proof.
  rewrite load_data_cases.
  assert (∀ g l, l ∈ dom (heap s) ->
                 <[fresh (dom (heap s)) := g]> (heap s) !! l = heap s !! l) as Hkeep.
  { intros g l Hl. apply lookup_insert_ne. intros Heq.
    apply (is_fresh (dom (heap s))). by rewrite Heq. }
  destruct (read_csv E (data_path (self s))) as [f|e]; [|by auto].
  simpl. destruct (convert_time E f) as [f'|e]; simpl.
  - split_and!; [by apply Hkeep|done|]. right. eexists. split; [done|].
    split; [apply is_fresh|]. rewrite lookup_insert_eq. by eexists.
  - split_and!; [by apply Hkeep|done|]. right. eexists. split; [done|].
    split; [apply is_fresh|]. rewrite lookup_insert_eq. by eexists.
Qed.

Lemma load_data_keeps_objects_witness :
  heap (snd (load_data scenario_env scenario_state)) !! (1%positive : loc)
  = heap scenario_state !! (1%positive : loc).
Proof.
  apply (proj1 (load_data_keeps_objects scenario_env scenario_state)).
  apply (bool_decide_unpack _). by vm_compute.
Defined.

(** ** [calculate_metrics]: what it adds to the table *)

(** The columns [calculate_metrics] writes. *)
Definition derived_names : list string :=
  ["engagement_rate"; "is_hot"; "upload_hour"; "time_period"].

Lemma obind_ret {A B} (o : outcome A) (k : A -> outcome B) b :
  obind o k = Ret b -> ∃ a, o = Ret a ∧ k a = Ret b.
Proof. destruct o as [a|e]; simpl; [by exists a|done]. Qed.

Lemma frame_set_ret k c f g :
  frame_set k c f = Ret g ->
  col_len c = nrows f ∧
  g = {| nrows := nrows f; cols := <[k := c]> (cols f); index := index f |}.
Proof.
  unfold frame_set. destruct (Nat.eqb (col_len c) (nrows f)) eqn:Hlen; [|done].
  intros [= <-]. by apply Nat.eqb_eq in Hlen.
Qed.

(** One step of a successful [obind] chain. *)
Ltac ob H x Hx := apply obind_ret in H as (x & Hx & H).

(** The table [derive_frame] returns is its argument with four columns
    written, of the kinds the statements produce. *)
Lemma derive_frame_extends f g :
  derive_frame f = Ret g ->
  ∃ er hot ts,
    cols f !! "upload_time" = Some (TimeCol ts) ∧
    length er = nrows f ∧ length hot = nrows f ∧ length ts = nrows f ∧
    g = {| nrows := nrows f;
           cols := <["time_period" := ObjCol (_categorize_time_period <$> (hour <$> ts))]>
                  (<["upload_hour" := IntCol (hour <$> ts)]>
                  (<["is_hot" := BoolCol hot]>
                  (<["engagement_rate" := FloatCol er]> (cols f))));
           index := index f |}.
Proof.
  unfold derive_frame. intros H.
  ob H likes Hlikes. ob H comments Hcomments. ob H s1 Hs1. ob H shares Hshares.
  ob H s2 Hs2. ob H views Hviews. ob H q Hq. ob H p Hp. ob H r Hr.
  ob H f1 Hf1. ob H er Her. ob H c1 Hc1. ob H v Hv. ob H c2 Hc2. ob H hot Hhot.
  ob H f2 Hf2. ob H ut Hut. ob H uh Huh. ob H f3 Hf3. ob H uh' Huh'. ob H tp Htp.
  apply frame_set_ret in H as [L4 ->].
  apply frame_set_ret in Hf3 as [L3 ->].
  apply frame_set_ret in Hf2 as [L2 ->].
  apply frame_set_ret in Hf1 as [L1 ->].
  unfold frame_get in Her, Hut, Huh'. simpl in Her, Hut, Huh', L2, L3.
  rewrite lookup_insert_eq in Her. injection Her as <-.
  rewrite lookup_insert_eq in Huh'. injection Huh' as <-.
  rewrite !lookup_insert_ne in Hut by done.
  destruct (cols f !! "upload_time") as [ut'|] eqn:Eut; [|done].
  injection Hut as <-.
  destruct ut' as [| | | |ts]; try done. injection Huh as <-.
  simpl in Htp. injection Htp as <-.
  assert (∃ xs, r = FloatCol xs) as [xs ->].
  { unfold col_truediv in Hq.
    destruct (as_float s2) as [a|]; [|done]. simpl in Hq.
    destruct (as_float views) as [b|]; [|done]. simpl in Hq.
    injection Hq as <-. simpl in Hp. injection Hp as <-.
    simpl in Hr. injection Hr as <-. by eexists. }
  assert (∃ bs, hot = BoolCol bs) as [bs ->].
  { unfold col_and in Hhot. destruct c1, c2; try done.
    injection Hhot as <-. by eexists. }
  exists xs, bs, ts. simpl in L1, L2, L3. rewrite length_fmap in L3.
  done.
Qed.

Lemma result_frame_ret r d :
  r.1 = Ret (Some d) -> result_frame r = Ret (heap r.2 !! d).
Proof. intros H. unfold result_frame. by rewrite H. Qed.

(** X4. When [calculate_metrics] returns a table, it is the loaded table
    with the columns [engagement_rate] (floats), [is_hot] (booleans),
    [upload_hour] (integers) and [time_period] (the label of each hour)
    written: the same rows and index, every other column as loaded, and a
    column of the file that bears one of the four names overwritten. *)
Theorem calculate_metrics_extends s l f d :
  df (self s) = Some l ->
  heap s !! l = Some f ->
  (calculate_metrics s).1 = Ret (Some d) ->
  ∃ g er hot hours,
    heap (calculate_metrics s).2 !! d = Some g ∧
    nrows g = nrows f ∧ index g = index f ∧
    dom (cols g) = dom (cols f) ∪ list_to_set derived_names ∧
    (∀ k, k ∉ derived_names -> cols g !! k = cols f !! k) ∧
    cols g !! "engagement_rate" = Some (FloatCol er) ∧
    cols g !! "is_hot" = Some (BoolCol hot) ∧
    cols g !! "upload_hour" = Some (IntCol hours) ∧
    cols g !! "time_period" = Some (ObjCol (_categorize_time_period <$> hours)) ∧
    (frame_wf f -> frame_wf g).
Proof.
  intros Hdf Hl Hret.
  pose proof (calculate_metrics_derive s l f Hdf Hl) as Hd.
  rewrite (result_frame_ret _ d Hret) in Hd.
  destruct (derive_frame f) as [g|e] eqn:Hg; [|done].
  injection Hd as Hd.
  destruct (derive_frame_extends f g Hg) as (er & hot & ts & Hut & L1 & L2 & L3 & ->).
  eexists _, er, hot, (hour <$> ts). split; [exact Hd|]. simpl.
  split_and!; try done; map_norm; try done.
  - rewrite !dom_insert_L. unfold derived_names. simpl. set_unfold. intros x. tauto.
  - intros k Hk. unfold derived_names in Hk.
    rewrite !lookup_insert_ne; [done|..]; intros <-; apply Hk;
      repeat first [apply list_elem_of_here | apply list_elem_of_further].
  - intros Hwf. unfold frame_wf. simpl.
    repeat apply map_Forall_insert_2; simpl; rewrite ?length_fmap; done.
Qed.

Lemma calculate_metrics_extends_witness :
  ∃ g, heap (calculate_metrics scenario_state).2 !! 2%positive = Some g ∧
       nrows g = 3%nat ∧
       cols g !! "content_type" = Some (ObjCol ["tech"; "food"; "tech"]).
Proof.
  destruct (calculate_metrics_extends scenario_state 1%positive
              (table_at scenario_state 1%positive) 2%positive)
    as (g & _ & _ & _ & Hg & Hn & _ & _ & Hk & _); [by vm_compute..|].
  exists g. split; [done|]. split; [by rewrite Hn|].
  rewrite Hk; [by vm_compute|].
  unfold derived_names. rewrite !elem_of_cons, elem_of_nil. intros [|[|[|[|[]]]]]; done.
Defined.

(** ** [get_summary_metrics]: reads only *)

(** A statement that leaves the state as it found it. *)
Definition reads_only {A} (c : M A) : Prop := ∀ s, (c s).2 = s.

Lemma reads_only_bind {A B} (c : M A) (k : A -> M B) :
  reads_only c -> (∀ a, reads_only (k a)) -> reads_only (bind c k).
Proof.
  intros Hc Hk s. unfold bind. specialize (Hc s).
  destruct (c s) as [[a|e] s1]; simpl in *; subst; [apply Hk|done].
Qed.

Lemma reads_only_ret {A} (a : A) : reads_only (ret a).
Proof. done. Qed.

Lemma reads_only_lift {A} (o : outcome A) : reads_only (lift o).
Proof. done. Qed.

Lemma reads_only_deref l : reads_only (deref l).
Proof. intros s. unfold deref. by destruct (heap s !! l). Qed.

Lemma reads_only_getitem l k : reads_only (getitem l k).
Proof.
  unfold getitem. apply reads_only_bind; [apply reads_only_deref|].
  intros f. apply reads_only_lift.
Qed.

Lemma reads_only_len l : reads_only (len l).
Proof.
  unfold len. apply reads_only_bind; [apply reads_only_deref|].
  intros f. apply reads_only_ret.
Qed.

(** X5. [get_summary_metrics] only reads: whatever table it is given and
    whether it returns or raises, the engine and every table are left as
    they were.  Given a table without the derived columns, such as the
    loaded table instead of the one [calculate_metrics] returns, it raises
    [KeyError] for [engagement_rate]. *)
Theorem get_summary_metrics_reads_only s d :
  (get_summary_metrics d s).2 = s ∧
  (∀ g vs, heap s !! d = Some g ->
           cols g !! "views" = Some (IntCol vs) ->
           cols g !! "engagement_rate" = None ->
           (get_summary_metrics d s).1 = Raise (KeyError "engagement_rate")).
Proof.
  split.
  - revert s. change (reads_only (get_summary_metrics d)). unfold get_summary_metrics.
    repeat first
      [ apply reads_only_ret
      | apply reads_only_bind;
        [first [apply reads_only_len | apply reads_only_getitem | apply reads_only_lift]
        | intros ?] ].
  - intros g vs Hd Hv He.
    enough (get_summary_metrics d s = (Raise (KeyError "engagement_rate"), s)) as -> by done.
    unfold get_summary_metrics.
    repeat step.
    erewrite bind_getitem by lookup_now.
    unfold frame_get. by rewrite He.
Qed.

Lemma get_summary_metrics_reads_only_witness :
  (get_summary_metrics 1%positive scenario_state).1 = Raise (KeyError "engagement_rate").
Proof.
  apply (proj2 (get_summary_metrics_reads_only scenario_state 1%positive)
           (table_at scenario_state 1%positive) [25000; 10000; 30000]);
    by vm_compute.
Defined.

(** ** [display_video_ranking]: works on a copy *)

(** X6. [display_video_ranking] leaves the engine and every existing
    table as they were, the table it is given included: the score column
    is written to a copy, and the ranking it builds is a new object. *)
Theorem display_video_ranking_keeps_tables s d :
  self (display_video_ranking d s).2 = self s ∧
  (∀ l, l ∈ dom (heap s) -> heap (display_video_ranking d s).2 !! l = heap s !! l) ∧
  (∀ r, (display_video_ranking d s).1 = Ret r ->
        (r ∉ dom (heap s)) ∧ is_Some (heap (display_video_ranking d s).2 !! r)).
Proof.
  assert (safe (dom (heap s)) (display_video_ranking d) (λ r, r ∉ dom (heap s))) as Hsafe.
  { unfold display_video_ranking. repeat safe_step. }
  destruct (Hsafe s) as [(Hself & _ & Hheap) HQ]; [done|].
  split_and!; [done|done|].
  intros r Hr. split; [by apply HQ|].
  pose proof (display_video_ranking_pure s d) as Hpure.
  unfold returned_frame in Hpure.
  destruct (heap s !! d) as [g|] eqn:Hd.
  - specialize (Hpure g eq_refl). rewrite Hr in Hpure.
    destruct (ranking g); [|done]. injection Hpure as ->. by eexists.
  - unfold display_video_ranking, copy in Hr.
    rewrite (bind_raise _ _ s TypeError s) in Hr; [done|].
    apply bind_raise. unfold deref. by rewrite Hd.
Qed.

Lemma display_video_ranking_keeps_tables_witness :
  heap (display_video_ranking 2%positive scenario_derived).2 !! (2%positive : loc)
  = heap scenario_derived !! (2%positive : loc).
Proof.
  apply (proj1 (proj2 (display_video_ranking_keeps_tables scenario_derived 2%positive))).
  apply (bool_decide_unpack _). by vm_compute.
Defined.

(** ** The breakdowns partition the records *)

Lemma sumZ_cons x xs : sumZ (x :: xs) = x + sumZ xs.
Proof. done. Qed.

Lemma sumZ_perm xs ys : xs ≡ₚ ys -> sumZ xs = sumZ ys.
Proof.
  induction 1; rewrite ?sumZ_cons; [done|lia|lia|congruence].
Qed.

Lemma sumZ_fmap_add {A} (f g : A -> Z) l :
  sumZ ((λ x, f x + g x) <$> l) = sumZ (f <$> l) + sumZ (g <$> l).
Proof.
  induction l as [|x l IH]; [done|]. rewrite !fmap_cons, !sumZ_cons, IH. lia.
Qed.

Lemma sumZ_fmap_zero {A} (l : list A) : sumZ ((λ _, 0) <$> l) = 0.
Proof.
  induction l as [|x l IH]; [done|]. by rewrite fmap_cons, sumZ_cons, IH.
Qed.

Lemma sumZ_fmap_one {A} (l : list A) : sumZ ((λ _, 1) <$> l) = Z.of_nat (length l).
Proof.
  induction l as [|x l IH]; [done|]. rewrite fmap_cons, sumZ_cons, IH. simpl length. lia.
Qed.

Lemma sumZ_indicator (a : string) gs v :
  NoDup gs -> a ∈ gs ->
  sumZ ((λ k, if decide (a = k) then v else 0) <$> gs) = v.
Proof.
  induction 1 as [|k gs Hk Hnd IH]; intros Ha.
  - by apply elem_of_nil in Ha.
  - rewrite fmap_cons, sumZ_cons.
    destruct (decide (a = k)) as [->|Hne].
    + assert (sumZ ((λ k0, if decide (k = k0) then v else 0) <$> gs) = 0) as ->; [|lia].
      etrans; [|apply (sumZ_fmap_zero gs)]. f_equal. apply list_fmap_ext.
      intros i x Hx. destruct (decide (k = x)) as [<-|]; [|done].
      exfalso. apply Hk. by eapply list_elem_of_lookup_2.
    + apply elem_of_cons in Ha as [?|Ha]; [done|]. rewrite IH by done. lia.
Qed.

(** The groups of the keys [gs] split the rows: a weight summed group by
    group is the weight summed over all rows. *)
Lemma group_partition {A} (w : A -> Z) (l : list (string * A)) gs :
  NoDup gs -> (∀ p, p ∈ l -> p.1 ∈ gs) ->
  sumZ ((λ k, sumZ (w <$> (snd <$> filter (λ p, p.1 = k) l))) <$> gs)
  = sumZ (w <$> (snd <$> l)).
Proof.
  intros Hnd. induction l as [|p l IH]; intros Hin.
  - simpl. apply sumZ_fmap_zero.
  - transitivity (sumZ ((λ k, (if decide (p.1 = k) then w p.2 else 0)
                              + sumZ (w <$> (snd <$> filter (λ q, q.1 = k) l))) <$> gs)).
    { f_equal. apply list_fmap_ext. intros i k _.
      rewrite filter_cons. by destruct (decide (p.1 = k)). }
    rewrite sumZ_fmap_add, sumZ_indicator, IH.
    + done.
    + intros q Hq. apply Hin. by apply elem_of_cons; right.
    + done.
    + apply Hin. by apply elem_of_cons; left.
Qed.

Lemma group_select_length {A B} ks k (xs : list A) (ys : list B) :
  length xs = length ys ->
  length (group_select ks k xs) = length (group_select ks k ys).
Proof.
  unfold group_select. rewrite !length_fmap.
  revert xs ys. induction ks as [|k' ks IH]; intros [|x xs] [|y ys] Hlen; try done.
  simpl. rewrite !filter_cons. simpl.
  destruct (decide (k' = k)); simpl; rewrite (IH xs ys); auto.
Qed.

Lemma group_select_nonempty {A} ks k (xs : list A) :
  length xs = length ks -> k ∈ ks -> (1 <= length (group_select ks k xs))%nat.
Proof.
  intros Hlen Hk. apply list_elem_of_lookup_1 in Hk as [i Hi].
  destruct (lookup_lt_is_Some_2 xs i) as [x Hx].
  { rewrite Hlen. by eapply lookup_lt_Some. }
  assert ((k, x) ∈ filter (λ p : string * A, p.1 = k) (zip ks xs)) as Hin.
  { apply list_elem_of_filter. split; [done|].
    apply (list_elem_of_lookup_2 _ i). unfold zip.
    apply lookup_zip_with_Some. by exists k, x. }
  unfold group_select. rewrite length_fmap.
  destruct (filter _ _); [by apply elem_of_nil in Hin|simpl; lia].
Qed.

Lemma count_true_weight bs :
  count_true bs = sumZ ((λ b : bool, if b then 1 else 0) <$> bs).
Proof.
  unfold count_true. induction bs as [|b bs IH]; [done|].
  rewrite filter_cons, fmap_cons, sumZ_cons, <- IH. destruct b; simpl.
  - destruct (decide (true = true)); [|done]. simpl length. lia.
  - destruct (decide (false = true)); [done|]. lia.
Qed.

Lemma count_true_bounds bs : 0 <= count_true bs <= Z.of_nat (length bs).
Proof.
  unfold count_true. pose proof (length_filter (λ b, b = true) bs). lia.
Qed.

Lemma group_keys_covers {A} ks (xs : list A) p :
  p ∈ zip ks xs -> p.1 ∈ group_keys ks.
Proof.
  intros Hp. apply elem_of_group_keys.
  apply list_elem_of_lookup_1 in Hp as [i Hi].
  unfold zip in Hi. apply lookup_zip_with_Some in Hi as (k & x & -> & Hk & _).
  by eapply list_elem_of_lookup_2.
Qed.

(** The record counts of the groups add up to the number of records. *)
Lemma group_count_sum {A} ks (xs : list A) :
  length xs = length ks ->
  sumZ (group_count ks xs <$> group_keys ks) = Z.of_nat (length ks).
Proof.
  intros Hlen.
  transitivity (sumZ ((λ k, sumZ ((λ _, 1) <$> (snd <$> filter (λ p, p.1 = k) (zip ks xs))))
                        <$> group_keys ks)).
  { f_equal. apply list_fmap_ext. intros i k _.
    unfold group_count, group_select. by rewrite sumZ_fmap_one. }
  rewrite group_partition; [|apply group_keys_NoDup|apply group_keys_covers].
  rewrite sumZ_fmap_one, length_fmap, length_zip. lia.
Qed.

(** The hot counts of the groups add up to the number of hot records. *)
Lemma group_hot_sum ks (hot : list bool) :
  length hot = length ks ->
  sumZ (group_hot ks hot <$> group_keys ks) = count_true hot.
Proof.
  intros Hlen.
  transitivity (sumZ ((λ k, sumZ ((λ b : bool, if b then 1 else 0)
                                    <$> (snd <$> filter (λ p, p.1 = k) (zip ks hot))))
                        <$> group_keys ks)).
  { f_equal. apply list_fmap_ext. intros i k _.
    unfold group_hot, group_select. by rewrite count_true_weight. }
  rewrite group_partition; [|apply group_keys_NoDup|apply group_keys_covers].
  rewrite snd_zip by lia. by rewrite count_true_weight.
Qed.

(** X7. In the content-type breakdown of a table whose columns are as
    long as the table, every row counts at least one record, so the
    divisor of [hot_rate] is never zero; its hot count lies between zero
    and its record count; the record counts add up to the number of
    records and the hot counts to the number of hot records, the
    [total_videos] and [hot_videos_count] of the summary. *)
Theorem content_type_partition `{Argsort} s d g ks vs er ids hot :
  heap s !! d = Some g ->
  content_schema g ks vs er ids hot ->
  frame_wf g ->
  ∃ out counts hots,
    returned_frame (get_content_type_analysis d s) = Ret (Some out) ∧
    cols out !! "video_count" = Some (IntCol counts) ∧
    cols out !! "hot_videos" = Some (IntCol hots) ∧
    Forall2 (λ h c, 0 <= h <= c ∧ 1 <= c) hots counts ∧
    sumZ counts = Z.of_nat (nrows g) ∧
    sumZ hots = count_true hot.
Proof.
  intros Hd Hsch Hwf.
  pose proof Hsch as [H1 H2 H3 H4 H5].
  assert (length ks = nrows g) as Lks by apply (map_Forall_lookup_1 _ _ _ _ Hwf H1).
  assert (length ids = nrows g) as Lids by apply (map_Forall_lookup_1 _ _ _ _ Hwf H4).
  assert (length hot = nrows g) as Lhot by apply (map_Forall_lookup_1 _ _ _ _ Hwf H5).
  set (idx := nargsort (mean_engagement ks er <$> group_keys ks) false).
  assert (idx ≡ₚ seq 0 (length (group_keys ks))) as Hperm.
  { unfold idx. rewrite nargsort_perm. by rewrite length_fmap. }
  assert (take_list idx (group_keys ks) ≡ₚ group_keys ks) as Hgs by by apply take_list_perm.
  exists (frame_take idx (content_groups ks vs er ids hot)),
         (group_count ks ids <$> take_list idx (group_keys ks)),
         (group_hot ks hot <$> take_list idx (group_keys ks)).
  split.
  { rewrite (get_content_type_analysis_pure s d g Hd).
    by rewrite (content_stats_run g ks vs er ids hot Hsch). }
  simpl. rewrite !lookup_fmap. map_norm. simpl. rewrite !take_list_fmap.
  split; [done|]. split; [done|]. split_and!.
  - apply Forall2_fmap, Forall_Forall2_diag, Forall_forall. intros k Hk.
    rewrite Hgs, elem_of_group_keys in Hk.
    unfold group_hot, group_count.
    pose proof (count_true_bounds (group_select ks k hot)) as Hb.
    rewrite (group_select_length ks k hot ids) in Hb by lia.
    assert (length ids = length ks) as Hlen by lia.
    pose proof (group_select_nonempty ks k ids Hlen Hk) as Hne.
    lia.
  - rewrite (sumZ_perm _ (group_count ks ids <$> group_keys ks)) by by rewrite Hgs.
    rewrite group_count_sum by lia. lia.
  - rewrite (sumZ_perm _ (group_hot ks hot <$> group_keys ks)) by by rewrite Hgs.
    apply group_hot_sum. lia.
Qed.

Lemma content_type_partition_witness :
  ∃ out counts hots,
    returned_frame (get_content_type_analysis (H := stable_sort) 2%positive scenario_derived)
      = Ret (Some out) ∧
    cols out !! "video_count" = Some (IntCol counts) ∧
    cols out !! "hot_videos" = Some (IntCol hots) ∧
    sumZ counts = 3 ∧ sumZ hots = 2.
Proof.
  destruct (content_type_partition (H := stable_sort) scenario_derived 2%positive
              (table_at scenario_derived 2%positive)
              ["tech"; "food"; "tech"] [25000; 10000; 30000]
              [dec 6 0; dec 3 0; dec 75 1] ["V10000"; "V10001"; "V10002"]
              [true; false; true])
    as (out & counts & hots & Hout & Hc & Hh & _ & Hsc & Hsh).
  - by vm_compute.
  - split; by vm_compute.
  - apply (bool_decide_unpack _). by vm_compute.
  - exists out, counts, hots. split_and!; [done..| |].
    + rewrite Hsc. by vm_compute.
    + rewrite Hsh. by vm_compute.
Defined.

(** The table behind the reference [calculate_metrics] returns. *)
Lemma calculate_metrics_table s l f d :
  df (self s) = Some l ->
  heap s !! l = Some f ->
  (calculate_metrics s).1 = Ret (Some d) ->
  ∃ er hot ts,
    cols f !! "upload_time" = Some (TimeCol ts) ∧
    length er = nrows f ∧ length hot = nrows f ∧ length ts = nrows f ∧
    heap (calculate_metrics s).2 !! d =
      Some {| nrows := nrows f;
              cols := <["time_period" := ObjCol (_categorize_time_period <$> (hour <$> ts))]>
                     (<["upload_hour" := IntCol (hour <$> ts)]>
                     (<["is_hot" := BoolCol hot]>
                     (<["engagement_rate" := FloatCol er]> (cols f))));
              index := index f |}.
Proof.
  intros Hdf Hl Hret.
  pose proof (calculate_metrics_derive s l f Hdf Hl) as Hd.
  rewrite (result_frame_ret _ d Hret) in Hd.
  destruct (derive_frame f) as [g|e] eqn:Hg; [|done].
  injection Hd as Hd.
  destruct (derive_frame_extends f g Hg) as (er & hot & ts & Hut & L1 & L2 & L3 & ->).
  by exists er, hot, ts.
Qed.

Lemma categorize_label h :
  _categorize_time_period h ∈ [Morning; Midday; Afternoon; Evening; LateNight].
Proof.
  unfold _categorize_time_period.
  repeat (case_match; [repeat first [apply list_elem_of_here | apply list_elem_of_further]|]).
  repeat first [apply list_elem_of_here | apply list_elem_of_further].
Qed.

(** X8. The time-period breakdown of the table [calculate_metrics]
    returns has at most five rows: its labels are distinct and among the
    five of [_categorize_time_period], every row counts at least one
    record, and the counts add up to the number of records. *)
Theorem time_period_rows `{Argsort} s l f d vs ids :
  df (self s) = Some l ->
  heap s !! l = Some f ->
  frame_wf f ->
  cols f !! "views" = Some (IntCol vs) ->
  cols f !! "video_id" = Some (ObjCol ids) ->
  (calculate_metrics s).1 = Ret (Some d) ->
  ∃ out labels counts,
    returned_frame (get_time_period_analysis d (calculate_metrics s).2) = Ret (Some out) ∧
    cols out !! "time_period" = Some (ObjCol labels) ∧
    cols out !! "video_count" = Some (IntCol counts) ∧
    NoDup labels ∧
    (∀ k, k ∈ labels -> k ∈ [Morning; Midday; Afternoon; Evening; LateNight]) ∧
    length labels = nrows out ∧ length counts = nrows out ∧
    (nrows out <= 5)%nat ∧
    Forall (λ c, 1 <= c) counts ∧
    sumZ counts = Z.of_nat (nrows f).
Proof.
  intros Hdf Hl Hwf Hvs Hids Hret.
  destruct (calculate_metrics_table s l f d Hdf Hl Hret)
    as (er & hot & ts & Hut & L1 & L2 & L3 & Hd).
  assert (length ids = nrows f) as Lids by apply (map_Forall_lookup_1 _ _ _ _ Hwf Hids).
  set (ks := _categorize_time_period <$> (hour <$> ts)).
  assert (length ks = nrows f) as Lks by (unfold ks; by rewrite !length_fmap).
  set (g := {| nrows := nrows f;
               cols := <["time_period" := ObjCol ks]>
                      (<["upload_hour" := IntCol (hour <$> ts)]>
                      (<["is_hot" := BoolCol hot]>
                      (<["engagement_rate" := FloatCol er]> (cols f))));
               index := index f |}) in *.
  assert (time_schema g ks vs er ids) as Hsch.
  { split; unfold g; simpl; map_norm; done. }
  set (idx := nargsort (mean_engagement ks er <$> group_keys ks) false).
  assert (idx ≡ₚ seq 0 (length (group_keys ks))) as Hperm.
  { unfold idx. rewrite nargsort_perm. by rewrite length_fmap. }
  assert (take_list idx (group_keys ks) ≡ₚ group_keys ks) as Hgs by by apply take_list_perm.
  assert (NoDup (take_list idx (group_keys ks))) as Hnd.
  { rewrite Hgs. apply group_keys_NoDup. }
  assert (∀ k, k ∈ take_list idx (group_keys ks) ->
               k ∈ [Morning; Midday; Afternoon; Evening; LateNight]) as Hlab.
  { intros k Hk. rewrite Hgs, elem_of_group_keys in Hk. unfold ks in Hk.
    apply list_elem_of_fmap in Hk as (h & -> & _). apply categorize_label. }
  assert (length (take_list idx (group_keys ks)) = length idx) as Hlen.
  { apply length_take_list. by apply perm_seq_valid. }
  exists (frame_take idx (time_groups ks vs er ids)),
         (take_list idx (group_keys ks)),
         (group_count ks ids <$> take_list idx (group_keys ks)).
  split.
  { rewrite (get_time_period_analysis_pure _ d g Hd).
    by rewrite (time_stats_run g ks vs er ids Hsch). }
  simpl. rewrite !lookup_fmap. map_norm. simpl. rewrite !take_list_fmap.
  split; [done|]. split; [done|]. split; [done|]. split; [done|].
  split; [done|]. split; [by rewrite length_fmap|].
  split_and!.
  - rewrite <- Hlen.
    apply (submseteq_length _ [Morning; Midday; Afternoon; Evening; LateNight]).
    by apply NoDup_submseteq.
  - apply Forall_fmap, Forall_forall. intros k Hk.
    rewrite Hgs, elem_of_group_keys in Hk. simpl. unfold group_count.
    assert (length ids = length ks) as Hlen' by lia.
    pose proof (group_select_nonempty ks k ids Hlen' Hk). lia.
  - rewrite (sumZ_perm _ (group_count ks ids <$> group_keys ks)) by by rewrite Hgs.
    rewrite group_count_sum by lia. lia.
Qed.

Lemma time_period_rows_witness :
  ∃ out,
    returned_frame (get_time_period_analysis (H := stable_sort) 2%positive scenario_derived)
      = Ret (Some out) ∧
    (nrows out <= 5)%nat.
Proof.
  destruct (time_period_rows (H := stable_sort) scenario_state 1%positive
              (table_at scenario_state 1%positive) 2%positive
              [25000; 10000; 30000] ["V10000"; "V10001"; "V10002"])
    as (out & labels & counts & Hout & _ & _ & _ & _ & _ & _ & Hn & _).
  - by vm_compute.
  - by vm_compute.
  - apply (bool_decide_unpack _). by vm_compute.
  - by vm_compute.
  - by vm_compute.
  - by vm_compute.
  - exists out. split; [exact Hout|exact Hn].
Defined.

(** ** [src/dashboard.py]: [VideoAnalyticsDashboard.run] *)

(** [VideoAnalyticsDashboard.__init__], lines 18-19: the engine of the
    dashboard. *)
Definition dashboard_init : state := init "data/sample_data.csv".

(** What [run] gives the rendering: nothing when the load fails, else the
    derived table, the summary, the two breakdowns and the ranking. *)
Inductive run_result : Type :=
| LoadFailed
| Rendered (df : loc) (summary : gmap string scalar)
           (content_stats time_stats top_videos : loc).

(** [run] after a successful load, lines 209-228: its calls of the engine
    and the ranking of [display_video_ranking], in the order of the
    method.  The Streamlit and plotly calls that draw the results are not
    modelled.  A [None] from [calculate_metrics] would reach [len] in
    [get_summary_metrics], which raises [TypeError]. *)
Definition run_loaded `{Argsort} : M run_result :=
  let* r := calculate_metrics in
  match r with
  | None => raise TypeError
  | Some d =>
      let* summary := get_summary_metrics d in
      let* content_stats := get_content_type_analysis d in
      let* time_stats := get_time_period_analysis d in
      let* top_videos := display_video_ranking d in
      ret (Rendered d summary content_stats time_stats top_videos)
  end.

(** [run], lines 202-228: when the load fails it reports the error and
    returns. *)
Definition run `{Argsort} (E : Env) : M run_result :=
  let* ok := load_data E in
  if negb ok then ret LoadFailed else run_loaded.


(** The table [load_data] stores: the file with its timestamps read. *)
Definition loaded (f : DataFrame) (ts : list datetime) : DataFrame :=
  {| nrows := nrows f; cols := <["upload_time" := TimeCol ts]> (cols f); index := index f |}.









Lemma safe_run_loaded `{Argsort} D : safe D run_loaded (λ r, r ≠ LoadFailed).
Proof.
  unfold run_loaded.
  eapply safe_bind; [apply safe_calculate_metrics|]. intros [d|] _; [|apply safe_raise].
  eapply safe_bind; [apply safe_get_summary_metrics|]. intros m _.
  eapply safe_bind; [apply safe_get_content_type_analysis|]. intros c _.
  eapply safe_bind; [apply safe_get_time_period_analysis|]. intros t _.
  eapply safe_bind; [apply safe_display_video_ranking|]. intros r _.
  by apply safe_ret.
Qed.

Lemma run_cases `{Argsort} E s :
  run E s =
    match load_data E s with
    | (Ret true, s1) => run_loaded s1
    | (Ret false, s1) => (Ret LoadFailed, s1)
    | (Raise e, s1) => (Raise e, s1)
    end.
Proof.
  unfold run, bind at 1. by destruct (load_data E s) as [[[|]|e] s1].
Qed.

(** X10. [run] reports a failed load exactly when [load_data] returns
    [False], and then calls nothing else: the state is the one the load
    left.  Whatever happens, [run] changes no table that existed before
    it. *)
Theorem run_load_failed `{Argsort} E s :
  ((run E s).1 = Ret LoadFailed ↔ (load_data E s).1 = Ret false) ∧
  ((load_data E s).1 = Ret false -> (run E s).2 = (load_data E s).2) ∧
  (∀ x, x ∈ dom (heap s) -> heap (run E s).2 !! x = heap s !! x).
Proof.
  assert (∀ g x, x ∈ dom (heap s) ->
                 <[fresh (dom (heap s)) := g]> (heap s) !! x = heap s !! x) as Hkeep.
  { intros g x Hx. apply lookup_insert_ne. intros Heq.
    apply (is_fresh (dom (heap s))). by rewrite Heq. }
  rewrite run_cases, load_data_cases.
  destruct (read_csv E (data_path (self s))) as [f|e]; [|simpl; repeat split; done].
  simpl. destruct (convert_time E f) as [f'|e]; simpl.
  - match goal with
    | |- context [run_loaded ?s1] =>
        destruct (safe_run_loaded (dom (heap s)) s1) as [(_ & _ & Hheap) Hres];
          [simpl; rewrite dom_insert_L; set_unfold; tauto|];
        destruct (run_loaded s1) as [o s'] eqn:Hq
    end.
    simpl in *. split_and!.
    + split; [|done]. intros Ho. by destruct (Hres _ Ho).
    + done.
    + intros x Hx. rewrite Hheap by done. by apply Hkeep.
  - repeat split; try done. intros x Hx. by apply Hkeep.
Qed.

Lemma run_load_failed_witness :
  (run (H := stable_sort) bad_time_env dashboard_init).1 = Ret LoadFailed.
Proof.
  apply (proj1 (run_load_failed (H := stable_sort) bad_time_env dashboard_init)).
  by vm_compute.
Defined.
